(** * JSON structuring agent: response normalisation, metadata stamping
      and the prior-stage gate

    A shallow embedding of [challenge-2/agents/json_structuring_agent.py].

    Python values are a small inductive type ([value]); Python [str] is a
    list of Unicode code points; [dict] is a [gmap] keyed by [str].  The
    functions of the module thread a [world] (the trace of library and SDK
    calls, and the number of clock reads) and may raise, so they live in a
    state-and-exception monad [M].  What the module does not own -- the JSON
    decoder, the Azure SDK objects, the clock, the process environment -- is
    gathered in a record [Env] over which every theorem is quantified. *)

From Stdlib Require Import ZArith List String Ascii.
From Stdlib Require Import Floats.SpecFloat.
From stdpp Require Import gmap strings list fin_maps.

Set Warnings "-register-all".

Open Scope Z_scope.

(** ** Python strings *)

(** A character is a Unicode code point; a [str] is a sequence of them, so
    that [len] is [length] and indexing is positional. *)
Abbreviation char := N (only parsing).
Abbreviation str := (list N) (only parsing).

(** [py "abc"] is the [str] of an ASCII literal. *)
Definition py (s : string) : str :=
  map N_of_ascii (list_ascii_of_string s).

(** The source has literals that contain the double-quote character; they are
    written here with an apostrophe in its place and [pyq] puts the
    double quotes back (code point 39 becomes 34). *)
Definition pyq (s : string) : str :=
  map (fun c => if (c =? 39)%N then 34%N else c) (py s).

(** [str.isspace] on one code point: the characters [str.strip()] removes. *)
Definition py_isspace (c : char) : bool :=
  ((9 <=? c) && (c <=? 13) || (28 <=? c) && (c <=? 32)
   || (c =? 133) || (c =? 160) || (c =? 5760)
   || (8192 <=? c) && (c <=? 8202)
   || (c =? 8232) || (c =? 8233) || (c =? 8239) || (c =? 8287)
   || (c =? 12288))%N.

Fixpoint lstrip (s : str) : str :=
  match s with
  | c :: s' => if py_isspace c then lstrip s' else s
  | [] => []
  end.

Definition rstrip (s : str) : str := rev (lstrip (rev s)).

(** [s.strip()] *)
Definition strip (s : str) : str := rstrip (lstrip s).

(** [s.startswith(p)] *)
Fixpoint startswith (s p : str) {struct p} : bool :=
  match p, s with
  | [], _ => true
  | _ :: _, [] => false
  | a :: p', b :: s' => (a =? b)%N && startswith s' p'
  end.

(** Lowest and highest start position of [sub] in [s], if any. *)
Fixpoint index_of (sub s : str) : option nat :=
  if startswith s sub then Some O
  else match s with
       | [] => None
       | _ :: s' => S <$> index_of sub s'
       end.

Fixpoint rindex_of (sub s : str) : option nat :=
  match s with
  | [] => if startswith s sub then Some O else None
  | _ :: s' =>
      match rindex_of sub s' with
      | Some i => Some (S i)
      | None => if startswith s sub then Some O else None
      end
  end.

(** [s.find(sub)] and [s.rfind(sub)]: an index, or [-1]. *)
Definition find (s sub : str) : Z :=
  match index_of sub s with Some i => Z.of_nat i | None => -1 end.

Definition rfind (s sub : str) : Z :=
  match rindex_of sub s with Some i => Z.of_nat i | None => -1 end.

(** Python's treatment of a slice bound: a negative bound counts from the
    end, and both are clipped to [0 .. len]. *)
Definition clip (len i : Z) : Z :=
  if i <? 0 then Z.max 0 (i + len) else Z.min i len.

(** [s[a:b]] *)
Definition slice (s : str) (a b : Z) : str :=
  let len := Z.of_nat (length s) in
  let a' := clip len a in
  let b' := clip len b in
  take (Z.to_nat (b' - a')) (drop (Z.to_nat a') s).

(** ** Response normalisation (lines 161-170) *)

Definition FENCE : str := py "```".
Definition LBRACE : str := py "{".
Definition RBRACE : str := py "}".

(** Lines 165-170, on the value of the variable [response_text]. *)
Definition fence_trim (response_text : str) : str :=
  if startswith response_text FENCE then
    let start_idx := find response_text LBRACE in
    let end_idx := rfind response_text RBRACE in
    if negb (start_idx =? -1) && negb (end_idx =? -1) then
      slice response_text start_idx (end_idx + 1)
    else response_text
  else response_text.

(** Lines 161-170: what [json.loads] receives at line 172, as a function of
    [response.output_text]. *)
Definition decoder_input (output_text : str) : str :=
  fence_trim (strip output_text).

(** The inclusive substring of [s] between two positions, read off the
    positions: the characters whose index [k] satisfies [i <= k <= j]. *)
Definition inclusive_substring (s : str) (i j : nat) : str :=
  map snd
    (List.filter (fun kc => (i <=? fst kc)%nat && (fst kc <=? j)%nat)
       (imap (fun k c => (k, c)) s)).


(** ** Python values *)

(** The values [json.loads] produces, which are also all the values the
    module handles: [None], [bool], [int], [float], [str], [list], [dict]. *)
Inductive value : Type :=
| VNone
| VBool (b : bool)
| VInt (z : Z)
| VFloat (f : spec_float)
| VStr (s : str)
| VList (l : list value)
| VDict (d : gmap str value).

(** Truth value of an object, as [not x] and [x or y] test it. *)
Definition truthy (v : value) : bool :=
  match v with
  | VNone => false
  | VBool b => b
  | VInt z => negb (z =? 0)
  | VFloat (S754_zero _) => false
  | VFloat _ => true
  | VStr s => negb (bool_decide (s = []))
  | VList l => match l with [] => false | _ => true end
  | VDict d => negb (bool_decide (d = ∅))
  end.

(** [x or y] *)
Definition py_or (x y : value) : value := if truthy x then x else y.

(** [v == s] for a [str] literal [s]: only an equal [str] compares equal. *)
Definition eq_str (v : value) (s : str) : bool :=
  match v with
  | VStr t => bool_decide (t = s)
  | _ => false
  end.

(** [type(v).__name__] *)
Definition type_name (v : value) : str :=
  match v with
  | VNone => py "NoneType"
  | VBool _ => py "bool"
  | VInt _ => py "int"
  | VFloat _ => py "float"
  | VStr _ => py "str"
  | VList _ => py "list"
  | VDict _ => py "dict"
  end.

(** ** Exceptions and outcomes *)

(** The classes of [Exception] the handlers tell apart, and those the
    operations below raise; [OtherException] is any other subclass of
    [Exception], such as the ones the SDK raises.  [exn_msg] is [str(e)]. *)
Inductive exn_class := JSONDecodeError | AttributeError | TypeError | OtherException.

Record exn := Exn { exn_cls : exn_class; exn_msg : str }.

Inductive outcome (A : Type) : Type :=
| Return (a : A)
| Raise (e : exn).
Arguments Return {A} a.
Arguments Raise {A} e.

Definition is_decode_error (e : exn) : bool :=
  match exn_cls e with JSONDecodeError => true | _ => false end.

(** [d.get(key, default)]: only a [dict] has the attribute. *)
Definition py_get (v : value) (key : str) (dflt : value) : outcome value :=
  match v with
  | VDict d => Return (default dflt (d !! key))
  | _ => Raise (Exn AttributeError
                  (py "'" ++ type_name v ++ py "' object has no attribute 'get'"))
  end.

(** [len(v)] *)
Definition py_len (v : value) : outcome value :=
  match v with
  | VStr s => Return (VInt (Z.of_nat (length s)))
  | VList l => Return (VInt (Z.of_nat (length l)))
  | VDict d => Return (VInt (Z.of_nat (size d)))
  | _ => Raise (Exn TypeError
                  (py "object of type '" ++ type_name v ++ py "' has no len()"))
  end.

(** [target[key] = v] for a [str] key. *)
Definition py_setitem (target : value) (key : str) (v : value) : outcome value :=
  match target with
  | VDict d => Return (VDict (<[key := v]> d))
  | VList _ => Raise (Exn TypeError
                        (py "list indices must be integers or slices, not str"))
  | _ => Raise (Exn TypeError
                  (py "'" ++ type_name target
                   ++ py "' object does not support item assignment"))
  end.

(** ** The world outside the module *)

(** The SDK objects, as the capabilities the module uses
    ([agent.name], [response.output_text], [client.agents.create_version],
    [client.get_openai_client], [openai_client.responses.create]); each call
    returns or raises. *)
Record Agent := { agent_name : str; agent_version : str }.

Record Response := { output_text : str }.

Record OpenAIClient := {
  responses_create : str -> str -> outcome Response
}.

Record Client := {
  agents_create_version : str -> str -> str -> outcome Agent;
  get_openai_client : outcome OpenAIClient
}.

Record Env := {
  (** [os.environ] after [load_dotenv] *)
  environ : gmap str str;
  (** [json.loads] *)
  json_loads : str -> outcome value;
  (** [AIProjectClient(endpoint=..., credential=DefaultAzureCredential())] *)
  AIProjectClient : option str -> outcome Client;
  (** [datetime.now().isoformat()] at the n-th reading of the clock *)
  isoformat_now : nat -> str;
  (** [str(v)] for a value that is not a [str] *)
  py_repr : value -> str
}.

(** Every call that leaves the module, in order.  (The temperature of the
    agent definition, the constant 0.1, is left out of [CallCreateVersion].) *)
Inductive call :=
| CallJsonLoads (text : str)
| CallAIProjectClient (endpoint : option str)
| CallCreateVersion (name model instructions : str)
| CallGetOpenAIClient
| CallResponsesCreate (input agent_ref : str).

(** The calls that go to the Azure SDK; [json.loads] is local. *)
Definition is_remote (c : call) : bool :=
  match c with CallJsonLoads _ => false | _ => true end.

Record world := World { calls : list call; clock_reads : nat }.

Definition remote_calls (w : world) : list call := List.filter is_remote (calls w).

(** ** The monad of the module's functions *)

Definition M (A : Type) : Type := world -> outcome A * world.

Definition ret {A} (a : A) : M A := fun w => (Return a, w).

Definition raise {A} (e : exn) : M A := fun w => (Raise e, w).

Definition bind {A B} (c : M A) (k : A -> M B) : M B :=
  fun w => match c w with
           | (Return a, w') => k a w'
           | (Raise e, w') => (Raise e, w')
           end.

Notation "'let*' x ':=' c 'in' k" := (bind c (fun x => k))
  (at level 10, x name, c at level 100, k at level 200).

(** A pure operation that may raise. *)
Definition lift {A} (o : outcome A) : M A := fun w => (o, w).

(** A call that leaves the module: recorded, then answered. *)
Definition extern {A} (c : call) (o : outcome A) : M A :=
  fun w => (o, World (calls w ++ [c]) (clock_reads w)).

(** [try: body  except <classes selected by sel> as e: handler e] *)
Definition try_except {A} (body : M A) (sel : exn -> bool) (handler : exn -> M A) : M A :=
  fun w => match body w with
           | (Raise e, w') => if sel e then handler e w' else (Raise e, w')
           | r => r
           end.

(** ** The module *)

Section Agent.

Context (env : Env).

(** Lines 34-36. *)
Definition project_endpoint : option str :=
  environ env !! py "AI_FOUNDRY_PROJECT_ENDPOINT".

Definition model_deployment_name : str :=
  default (py "gpt-4o-mini") (environ env !! py "MODEL_DEPLOYMENT_NAME").

(** [datetime.now().isoformat()] *)
Definition now_isoformat : M str :=
  fun w => (Return (isoformat_now env (clock_reads w)),
            World (calls w) (S (clock_reads w))).

(** [f"{v}"] *)
Definition format (v : value) : str :=
  match v with
  | VStr s => s
  | _ => py_repr env v
  end.

(** Lines 39-96. *)
Definition get_agent_instructions : str :=
  pyq "You are an expert OCR text extraction assistant specialized in extracting and structuring text content from JPEG images.

**Your Task**:
Extract all visible text from the provided JPEG image and structure it into a clean, organized JSON format. Focus solely on text extraction - do not analyze or describe any visual elements, objects, or non-text content in the image.

**JSON Output Structure**:
{
  'document_type': 'form | letter | receipt | invoice | certificate | report | handwritten | mixed | other',
  'extracted_text': {
    'raw_text': 'Complete extracted text preserving original layout where possible',
    'text_blocks': [
      {
        'block_id': 1,
        'content': 'Text content of this block',
        'text_type': 'printed | handwritten | mixed'
      }
    ],
    'structured_fields': {
      'titles': ['Any document titles or headers'],
      'dates': ['Extracted dates in original format'],
      'names': ['Person or organization names found'],
      'addresses': ['Any addresses found'],
      'phone_numbers': ['Phone numbers found'],
      'email_addresses': ['Email addresses found'],
      'reference_numbers': ['Document numbers, IDs, or reference codes'],
      'amounts': ['Monetary amounts or numeric values with context']
    }
  },
  'text_quality': {
    'overall_legibility': 'high | medium | low',
    'issues': ['List any text that was unclear or partially readable']
  },
  'confidence': 'high | medium | low',
  'extraction_notes': 'Notes about the extraction quality or any ambiguities'
}

**Processing Rules**:
1. Extract ALL visible text from the image - do not skip any text content
2. Preserve the original text exactly as it appears (spelling, formatting, punctuation)
3. Organize text blocks in reading order (top to bottom, left to right)
4. Identify and categorize structured fields (dates, names, numbers, etc.)
5. Note any text that is unclear, partially visible, or difficult to read
6. Use null for structured fields where no relevant text is found
7. Set confidence level based on text clarity and extraction completeness
8. Focus ONLY on text - ignore any images, graphics, logos, or visual elements
9. Return ONLY valid JSON, no additional commentary

**Important**: 
- Your entire response must be valid JSON that can be parsed
- Do not include any text before or after the JSON object
- Do not describe or analyze any pictures, photos, or visual content - extract text only".

(** Lines 144-150: the f-string, as the text before the placeholder, the
    formatted OCR text and the text after it. *)
Definition QUERY_HEAD : str :=
  py "Please extract and structure all text from the following OCR output into the standardized JSON format.

---OCR TEXT START---
".

Definition QUERY_TAIL : str :=
  py "
---OCR TEXT END---

Return only the structured JSON object with all extracted text.".

Definition user_query (ocr_text : value) : str :=
  QUERY_HEAD ++ format ocr_text ++ QUERY_TAIL.

(** Lines 113-158, up to the reply of the model: [response.output_text].
    The [agent] argument of the function is overwritten at line 129 before
    any use, so it does not appear. *)
Definition ask_agent (ocr_text : value) (project_client : option Client) : M str :=
  let* project_client :=
    match project_client with
    | None => extern (CallAIProjectClient project_endpoint)
                (AIProjectClient env project_endpoint)
    | Some c => ret c
    end in
  let agent_instructions := get_agent_instructions in
  let* agent :=
    extern (CallCreateVersion (py "OCRTextExtractionAgent")
              model_deployment_name agent_instructions)
      (agents_create_version project_client (py "OCRTextExtractionAgent")
         model_deployment_name agent_instructions) in
  let* openai_client :=
    extern CallGetOpenAIClient (get_openai_client project_client) in
  let user_query := user_query ocr_text in
  let* response :=
    extern (CallResponsesCreate user_query (agent_name agent))
      (responses_create openai_client user_query (agent_name agent)) in
  ret (output_text response).

(** Lines 175-180: the metadata of a Structured Result. *)
Definition success_metadata (source_file : value) (ts : str) (n : value) : value :=
  VDict (<[py "source_file" := py_or source_file (VStr (py "unknown"))]>
        (<[py "processing_timestamp" := VStr ts]>
        (<[py "agent_model" := VStr model_deployment_name]>
        (<[py "original_text_length" := n]> ∅)))).

(** Lines 172-183, given the text to decode. *)
Definition decode_and_stamp (response_text : str) (ocr_text source_file : value) : M value :=
  let* structured_data :=
    extern (CallJsonLoads response_text) (json_loads env response_text) in
  let* ts := now_isoformat in
  let* n := lift (py_len ocr_text) in
  lift (py_setitem structured_data (py "metadata")
          (success_metadata source_file ts n)).

(** Lines 188-197; [response_text] is [None] while the variable is not
    bound yet ([response_text if 'response_text' in locals() else ...]). *)
Definition decode_error_result (source_file : value) (response_text : option str)
    (e : exn) (ts : str) : value :=
  VDict
    (<[py "error" := VStr (py "JSON parsing failed")]>
    (<[py "error_details" := VStr (exn_msg e)]>
    (<[py "raw_response" := VStr (default (py "No response") response_text)]>
    (<[py "metadata" := VDict
         (<[py "source_file" := py_or source_file (VStr (py "unknown"))]>
         (<[py "processing_timestamp" := VStr ts]>
         (<[py "agent_model" := VStr model_deployment_name]> ∅)))]> ∅)))).

(** Lines 201-208. *)
Definition exception_result (source_file : value) (e : exn) (ts : str) : value :=
  VDict
    (<[py "error" := VStr (py "Processing failed")]>
    (<[py "error_details" := VStr (exn_msg e)]>
    (<[py "metadata" := VDict
         (<[py "source_file" := py_or source_file (VStr (py "unknown"))]>
         (<[py "processing_timestamp" := VStr ts]> ∅))]> ∅))).

(** Lines 185-197. *)
Definition on_decode_error (source_file : value) (response_text : option str)
    (e : exn) : M value :=
  let* ts := now_isoformat in
  ret (decode_error_result source_file response_text e ts).

(** Lines 199-208. *)
Definition on_exception (source_file : value) (e : exn) : M value :=
  let* ts := now_isoformat in
  ret (exception_result source_file e ts).

(** The two [except] clauses of lines 185-208, tried in order. *)
Definition handlers (source_file : value) (response_text : option str)
    (e : exn) : M value :=
  if is_decode_error e then on_decode_error source_file response_text e
  else on_exception source_file e.

(** Lines 99-208.  The body of the [try] is run in two parts, lines 113-158
    and lines 161-183, so that the handlers know whether the variable
    [response_text] is bound when they run. *)
Definition structure_ocr_to_json (ocr_text source_file : value)
    (project_client : option Client) : M value :=
  fun w =>
    match ask_agent ocr_text project_client w with
    | (Raise e, w1) => handlers source_file None e w1
    | (Return out, w1) =>
        let response_text := strip out in
        let response_text := fence_trim response_text in
        match decode_and_stamp response_text ocr_text source_file w1 with
        | (Raise e, w2) => handlers source_file (Some response_text) e w2
        | r => r
        end
    end.

(** Lines 226-233. *)
Definition ocr_failed_result (ocr_error source_file : value) (ts : str) : value :=
  VDict
    (<[py "error" := VStr (py "OCR processing failed")]>
    (<[py "ocr_error" := ocr_error]>
    (<[py "metadata" := VDict
         (<[py "source_file" := source_file]>
         (<[py "processing_timestamp" := VStr ts]> ∅))]> ∅))).

(** Lines 240-246. *)
Definition no_text_result (source_file : value) (ts : str) : value :=
  VDict
    (<[py "error" := VStr (py "No text extracted from OCR")]>
    (<[py "metadata" := VDict
         (<[py "source_file" := py_or source_file (VStr (py "unknown"))]>
         (<[py "processing_timestamp" := VStr ts]> ∅))]> ∅)).

(** Lines 252-258. *)
Definition invalid_json_result (e : exn) (ts : str) : value :=
  VDict
    (<[py "error" := VStr (py "Invalid OCR result JSON")]>
    (<[py "error_details" := VStr (exn_msg e)]>
    (<[py "metadata" := VDict
         (<[py "processing_timestamp" := VStr ts]> ∅)]> ∅))).

(** Lines 211-258. *)
Definition process_ocr_result (ocr_result_json : str) : M value :=
  try_except
    (let* ocr_data :=
       extern (CallJsonLoads ocr_result_json) (json_loads env ocr_result_json) in
     let* status := lift (py_get ocr_data (py "status") VNone) in
     if negb (eq_str status (py "success")) then
       let* ocr_error :=
         lift (py_get ocr_data (py "error") (VStr (py "Unknown error"))) in
       let* source_file :=
         lift (py_get ocr_data (py "file_path") (VStr (py "unknown"))) in
       let* ts := now_isoformat in
       ret (ocr_failed_result ocr_error source_file ts)
     else
       let* ocr_text := lift (py_get ocr_data (py "text") (VStr [])) in
       let* source_file := lift (py_get ocr_data (py "file_path") VNone) in
       if negb (truthy ocr_text) then
         let* ts := now_isoformat in
         ret (no_text_result source_file ts)
       else
         structure_ocr_to_json ocr_text source_file None)
    is_decode_error
    (fun e =>
       let* ts := now_isoformat in
       ret (invalid_json_result e ts)).

End Agent.

(** ** The output file of the command line (line 383) *)

(** [s.rsplit(sep, 1)] for a non-empty [sep]. *)
Definition rsplit1 (s sep : str) : list str :=
  let i := rfind s sep in
  if i =? -1 then [s]
  else [slice s 0 i; slice s (i + Z.of_nat (length sep)) (Z.of_nat (length s))].

(** [input_file.rsplit('.', 1)[0] + '_structured.json'] *)
Definition output_file (input_file : str) : str :=
  default [] (rsplit1 input_file (py ".") !! O) ++ py "_structured.json".

(** The name the claim about the output file expects: the input path with
    the final extension of its last component replaced.  The last component
    is what follows the last [/]; its final extension starts at its last
    [.], and a component without [.] has none. *)
Definition replace_final_extension (input_file : str) : str :=
  let cut := Z.to_nat (rfind input_file (py "/") + 1) in
  let dir := take cut input_file in
  let name := drop cut input_file in
  let stem := match rindex_of (py ".") name with
              | Some i => take i name
              | None => name
              end in
  dir ++ stem ++ py "_structured.json".

(** ** The command line (lines 261-410)

    What a run of [main] does that can be observed from outside: the calls
    it makes to the SDK and to the decoder, the texts it prints, the file it
    reads and the file it writes, and its entering and leaving the
    [with project_client] block.  [print] and the block's [__enter__] and
    [__exit__] are taken not to raise; logging is left out, as it is in the
    functions above. *)
Inductive effect :=
| DidCall (c : call)
| DidPrint (text : str)
| DidRead (path : str)
| DidWrite (path content : str)
| DidEnter
| DidExit.

Record console := Console { effects : list effect; clock : nat }.

(** What [main] takes from the process and the libraries, beside [Env]. *)
Record Shell := {
  shell_env : Env;
  (** [sys.argv] *)
  argv : list str;
  (** [os.path.exists] *)
  path_exists : str -> bool;
  (** [open(path, 'r')] and [f.read()] *)
  read_text : str -> outcome str;
  (** [open(path, 'w')] and the writing of a text to it *)
  write_text : str -> str -> outcome ();
  (** [json.dumps(v, indent=2)], the text [json.dump(v, f, indent=2)] writes *)
  json_dumps : value -> str;
  (** [traceback.format_exc()] while the exception is handled *)
  format_exc : exn -> str;
  (** the message of the [TypeError] of [key in v] when [v] is no container *)
  not_iterable : value -> str
}.

Definition C (A : Type) : Type := console -> outcome A * console.

Definition cret {A} (a : A) : C A := fun k => (Return a, k).

Definition cbind {A B} (c : C A) (f : A -> C B) : C B :=
  fun k => match c k with
           | (Return a, k') => f a k'
           | (Raise e, k') => (Raise e, k')
           end.

Notation "'do*' x ':=' c 'in' f" := (cbind c (fun x => f))
  (at level 10, x name, c at level 100, f at level 200).

Notation "'run*' c 'in' f" := (cbind c (fun _ => f))
  (at level 10, c at level 100, f at level 200).

Definition clift {A} (o : outcome A) : C A := fun k => (o, k).

(** An effect, and the outcome of the operation behind it. *)
Definition perform {A} (e : effect) (o : outcome A) : C A :=
  fun k => (o, Console (effects k ++ [e]) (clock k)).

Definition print (text : str) : C () := perform (DidPrint text) (Return ()).

Definition ctry {A} (body : C A) (sel : exn -> bool) (handler : exn -> C A) : C A :=
  fun k => match body k with
           | (Raise e, k') => if sel e then handler e k' else (Raise e, k')
           | r => r
           end.

(** [with project_client: body] *)
Definition with_client {A} (body : C A) : C A :=
  fun k => match body (Console (effects k ++ [DidEnter]) (clock k)) with
           | (r, k') => (r, Console (effects k' ++ [DidExit]) (clock k'))
           end.

Definition NL : str := [10%N].

(** [key in v] for a [str] key: a key of a mapping, an element of a list, a
    substring of a string; anything else is no container. *)
Definition py_contains (msg : value -> str) (key : str) (v : value) : outcome bool :=
  match v with
  | VDict d => Return (bool_decide (is_Some (d !! key)))
  | VList l => Return (existsb (fun x => eq_str x key) l)
  | VStr s => Return (bool_decide (is_Some (index_of key s)))
  | _ => Raise (Exn TypeError (msg v))
  end.

(** [v[key]] for a [str] key; [KeyError] is an [OtherException] whose text
    is the quoted key. *)
Definition py_getitem (v : value) (key : str) : outcome value :=
  match v with
  | VDict d =>
      match d !! key with
      | Some x => Return x
      | None => Raise (Exn OtherException (py "'" ++ key ++ py "'"))
      end
  | VStr _ => Raise (Exn TypeError (py "string indices must be integers, not 'str'"))
  | VList _ => Raise (Exn TypeError
                        (py "list indices must be integers or slices, not str"))
  | _ => Raise (Exn TypeError
                  (py "'" ++ type_name v ++ py "' object is not subscriptable"))
  end.

Section Main.

Context (sh : Shell).

Local Abbreviation env := (shell_env sh).

Definition cnow : C str :=
  fun k => (Return (isoformat_now env (clock k)),
            Console (effects k) (S (clock k))).

(** Lines 268-274. *)
Definition print_usage : C () :=
  run* print (py "Usage: python json_structuring_agent.py <ocr_text_file_or_json>") in
  run* print (NL ++ py "Example with OCR JSON result:") in
  run* print (py "  python json_structuring_agent.py ocr_result.json") in
  run* print (NL ++ py "Example with raw text file:") in
  print (py "  python json_structuring_agent.py extracted_text.txt").

(** Lines 311-332: what the file holds.  [None] is the [return] of line 326;
    otherwise [is_ocr_json], [ocr_text] and [source_file]. *)
Definition read_input (input_file file_content : str)
    : C (option (bool * value * value)) :=
  ctry
    (do* ocr_data := perform (DidCall (CallJsonLoads file_content))
                       (json_loads env file_content) in
     do* has_text := clift (py_contains (not_iterable sh) (py "text") ocr_data) in
     do* has_both :=
       if has_text
       then clift (py_contains (not_iterable sh) (py "status") ocr_data)
       else cret false in
     if has_both then
       do* status := clift (py_get ocr_data (py "status") VNone) in
       if eq_str status (py "success") then
         do* ocr_text := clift (py_get ocr_data (py "text") (VStr [])) in
         do* source_file :=
           clift (py_get ocr_data (py "file_path") (VStr input_file)) in
         cret (Some (true, ocr_text, source_file))
       else
         do* ocr_error :=
           clift (py_get ocr_data (py "error") (VStr (py "Unknown error"))) in
         run* print ([10060%N] ++ py " OCR failed: " ++ format env ocr_error) in
         cret None
     else
       cret (Some (false, VStr file_content, VStr input_file)))
    is_decode_error
    (fun _ => cret (Some (false, VStr file_content, VStr input_file))).

(** Lines 371-376. *)
Definition cli_metadata (source_file : value) (ts : str) (n : value) : value :=
  VDict (<[py "source_file" := source_file]>
        (<[py "processing_timestamp" := VStr ts]>
        (<[py "agent_model" := VStr (model_deployment_name env)]>
        (<[py "original_text_length" := n]> ∅)))).

(** Lines 389-400. *)
Definition print_summary (result : value) : C () :=
  run* print (NL ++ [128202%N] ++ py " Summary:") in
  do* document_type :=
    clift (py_get result (py "document_type") (VStr (py "unknown"))) in
  run* print (py "   Document type: " ++ format env document_type) in
  do* vehicle_side :=
    clift (py_get result (py "vehicle_side") (VStr (py "unspecified"))) in
  run* print (py "   Vehicle side: " ++ format env vehicle_side) in
  do* confidence :=
    clift (py_get result (py "confidence") (VStr (py "unknown"))) in
  run* print (py "   Confidence: " ++ format env confidence) in
  do* data := clift (py_get result (py "extracted_data") (VDict ∅)) in
  do* holder := clift (py_get data (py "policy_holder") (VDict ∅)) in
  do* name := clift (py_get holder (py "name") VNone) in
  run* (if truthy name then
          do* data := clift (py_getitem result (py "extracted_data")) in
          do* holder := clift (py_getitem data (py "policy_holder")) in
          do* name := clift (py_getitem holder (py "name")) in
          print (py "   Policy holder: " ++ format env name)
        else cret ()) in
  do* data := clift (py_get result (py "extracted_data") (VDict ∅)) in
  do* damages := clift (py_get data (py "damages") (VDict ∅)) in
  do* amount := clift (py_get damages (py "estimated_amount") VNone) in
  run* (if truthy amount then
          do* data := clift (py_getitem result (py "extracted_data")) in
          do* damages := clift (py_getitem data (py "damages")) in
          do* amount := clift (py_getitem damages (py "estimated_amount")) in
          print (py "   Estimated amount: $" ++ format env amount)
        else cret ()) in
  print (NL ++ [10003%N] ++ py " JSON Structuring Agent completed successfully!").

(** Lines 367-404. *)
Definition decode_and_save (input_file : str) (ocr_text source_file : value)
    (response_text : str) : C () :=
  ctry
    (do* result := perform (DidCall (CallJsonLoads response_text))
                     (json_loads env response_text) in
     do* ts := cnow in
     do* n := clift (py_len ocr_text) in
     do* result := clift (py_setitem result (py "metadata")
                            (cli_metadata source_file ts n)) in
     run* print (NL ++ py "=== Structured JSON Output ===") in
     run* print (json_dumps sh result) in
     let output_file := output_file input_file in
     run* perform (DidWrite output_file (json_dumps sh result))
            (write_text sh output_file (json_dumps sh result)) in
     run* print (NL ++ [10003%N] ++ py " Structured JSON saved to: " ++ output_file) in
     print_summary result)
    is_decode_error
    (fun e =>
       run* print (NL ++ [10060%N] ++ py " Failed to parse agent response as JSON: "
                   ++ exn_msg e) in
       print (py "Raw response:" ++ NL ++ response_text)).

(** Lines 334-404: the exchange with the agent, once the input is read. *)
Definition submit (input_file : str) (project_client : Client) (agent : Agent)
    (is_ocr_json : bool) (ocr_text source_file : value) : C () :=
  run* print (py "   Type: "
              ++ (if is_ocr_json then py "OCR JSON result" else py "Raw text")) in
  do* n := clift (py_len ocr_text) in
  run* print (py "   Text length: " ++ format env n ++ py " characters" ++ NL) in
  do* openai_client :=
    perform (DidCall CallGetOpenAIClient) (get_openai_client project_client) in
  let user_query := user_query env ocr_text in
  run* print ([129302%N] ++ py " Sending to agent for text extraction...") in
  do* response :=
    perform (DidCall (CallResponsesCreate user_query (agent_name agent)))
      (responses_create openai_client user_query (agent_name agent)) in
  let response_text := strip (output_text response) in
  let response_text := fence_trim response_text in
  decode_and_save input_file ocr_text source_file response_text.

(** Lines 290-404: the body of [with project_client]. *)
Definition converse (input_file : str) (project_client : Client) : C () :=
  let agent_instructions := get_agent_instructions in
  do* agent :=
    perform (DidCall (CallCreateVersion (py "OCRTextExtractionAgent")
                        (model_deployment_name env) agent_instructions))
      (agents_create_version project_client (py "OCRTextExtractionAgent")
         (model_deployment_name env) agent_instructions) in
  run* print ([9989%N] ++ py " Created OCR Text Extraction Agent: "
              ++ agent_name agent ++ py " (version " ++ agent_version agent
              ++ py ")") in
  run* print (py "   Agent visible in Foundry portal" ++ NL) in
  do* file_content := perform (DidRead input_file) (read_text sh input_file) in
  do* input := read_input input_file file_content in
  match input with
  | None => cret ()
  | Some (is_ocr_json, ocr_text, source_file) =>
      submit input_file project_client agent is_ocr_json ocr_text source_file
  end.

(** Lines 261-410. *)
Definition main : C () :=
  run* print (py "=== JSON Structuring Agent with GPT-4o-mini ===" ++ NL) in
  ctry
    (if (length (argv sh) <? 2)%nat then print_usage
     else
       let input_file := default [] (argv sh !! 1%nat) in
       if negb (path_exists sh input_file) then
         print ([10060%N] ++ py " Error: File not found: " ++ input_file)
       else
         run* print ([128196%N] ++ py " Processing file: " ++ input_file ++ NL) in
         do* project_client :=
           perform (DidCall (CallAIProjectClient (project_endpoint env)))
             (AIProjectClient env (project_endpoint env)) in
         with_client (converse input_file project_client))
    (fun _ => true)
    (fun e =>
       run* print ([10060%N] ++ py " Error: " ++ exn_msg e) in
       print (NL ++ py "Stack trace:" ++ NL ++ format_exc sh e)).

End Main.

(** ** A decoder and an environment to run the module on

    The theorems below hold for every [Env].  To evaluate the module on
    concrete inputs, [Sample.loads] decodes the fragment of JSON made of
    objects, arrays, strings without escapes, integers, [true], [false] and
    [null]; on that fragment it returns what [json.loads] returns, and on
    every text that is not JSON it raises, as [json.loads] does.  Outside
    the fragment (escapes, fractions, exponents) it raises as well, and its
    diagnostic is one fixed message. *)
Module Sample.

Definition is_ws (c : char) : bool :=
  ((c =? 32) || (c =? 9) || (c =? 10) || (c =? 13))%N.

Definition is_digit (c : char) : bool := ((48 <=? c) && (c <=? 57))%N.

Fixpoint skip_ws (s : str) : str :=
  match s with
  | c :: s' => if is_ws c then skip_ws s' else s
  | [] => []
  end.

(** The characters of a string up to its closing quote, and what follows. *)
Fixpoint scan_string (s acc : str) : option (str * str) :=
  match s with
  | [] => None
  | c :: s' =>
      if (c =? 34)%N then Some (rev acc, s')
      else if ((c =? 92) || (c <? 32))%N then None
      else scan_string s' (c :: acc)
  end.

Fixpoint scan_digits (s : str) (acc : Z) : Z * str :=
  match s with
  | c :: s' =>
      if is_digit c then scan_digits s' (10 * acc + (Z.of_N c - 48))
      else (acc, s)
  | [] => (acc, [])
  end.

(** An integer literal; a fraction or an exponent is outside the fragment. *)
Definition scan_int (s : str) : option (value * str) :=
  let '(neg, s1) := match s with
                    | 45%N :: r => (true, r)
                    | _ => (false, s)
                    end in
  match s1 with
  | c :: r =>
      if is_digit c then
        let '(n, rest) := if (c =? 48)%N then (0, r) else scan_digits s1 0 in
        match rest with
        | d :: _ =>
            if ((d =? 46) || (d =? 101) || (d =? 69))%N then None
            else Some (VInt (if neg then - n else n), rest)
        | [] => Some (VInt (if neg then - n else n), rest)
        end
      else None
  | [] => None
  end.

Fixpoint parse_value (fuel : nat) (s : str) : option (value * str) :=
  match fuel with
  | O => None
  | S fuel =>
      match skip_ws s with
      | 110 :: 117 :: 108 :: 108 :: r => Some (VNone, r)
      | 116 :: 114 :: 117 :: 101 :: r => Some (VBool true, r)
      | 102 :: 97 :: 108 :: 115 :: 101 :: r => Some (VBool false, r)
      | 34 :: r =>
          match scan_string r [] with
          | Some (t, r') => Some (VStr t, r')
          | None => None
          end
      | 91 :: r =>
          match skip_ws r with
          | 93 :: r' => Some (VList [], r')
          | _ => parse_elements fuel r []
          end
      | 123 :: r =>
          match skip_ws r with
          | 125 :: r' => Some (VDict ∅, r')
          | _ => parse_members fuel r ∅
          end
      | s' => scan_int s'
      end%N
  end
with parse_elements (fuel : nat) (s : str) (acc : list value) : option (value * str) :=
  match fuel with
  | O => None
  | S fuel =>
      match parse_value fuel s with
      | Some (v, r) =>
          match skip_ws r with
          | 44 :: r' => parse_elements fuel r' (v :: acc)
          | 93 :: r' => Some (VList (rev (v :: acc)), r')
          | _ => None
          end%N
      | None => None
      end
  end
with parse_members (fuel : nat) (s : str) (acc : gmap str value) : option (value * str) :=
  match fuel with
  | O => None
  | S fuel =>
      match skip_ws s with
      | 34 :: r =>
          match scan_string r [] with
          | Some (k, r1) =>
              match skip_ws r1 with
              | 58 :: r2 =>
                  match parse_value fuel r2 with
                  | Some (v, r3) =>
                      match skip_ws r3 with
                      | 44 :: r4 => parse_members fuel r4 (<[k := v]> acc)
                      | 125 :: r4 => Some (VDict (<[k := v]> acc), r4)
                      | _ => None
                      end
                  | None => None
                  end
              | _ => None
              end
          | None => None
          end
      | _ => None
      end%N
  end.

Definition decode_error : exn := Exn JSONDecodeError (py "Expecting value").

Definition loads (s : str) : outcome value :=
  match parse_value (2 * length s + 2) s with
  | Some (v, r) =>
      match skip_ws r with
      | [] => Return v
      | _ => Raise decode_error
      end
  | None => Raise decode_error
  end.

(** An SDK whose model answers every request with [reply]. *)
Definition openai (reply : outcome str) : OpenAIClient :=
  {| responses_create := fun _ _ =>
       match reply with
       | Return t => Return {| output_text := t |}
       | Raise e => Raise e
       end |}.

Definition client (reply : outcome str) : Client :=
  {| agents_create_version := fun name _ _ =>
       Return {| agent_name := name; agent_version := py "1" |};
     get_openai_client := Return (openai reply) |}.

Definition env (reply : outcome str) : Env :=
  {| environ := ∅;
     json_loads := loads;
     AIProjectClient := fun _ => Return (client reply);
     isoformat_now := fun _ => py "2025-01-01T00:00:00";
     py_repr := fun v => py "<" ++ type_name v ++ py ">" |}.

Definition w0 : world := World [] 0.

End Sample.


(** A shell to run [main] in: the files are a finite map from paths to
    texts, every write succeeds, and the texts that Python's libraries would
    produce are placeholders. *)
Module SampleShell.

Definition shell (args : list str) (files : gmap str str) (reply : outcome str)
    : Shell :=
  {| shell_env := Sample.env reply;
     argv := args;
     path_exists := fun p => bool_decide (is_Some (files !! p));
     read_text := fun p =>
       match files !! p with
       | Some t => Return t
       | None => Raise (Exn OtherException (py "No such file or directory"))
       end;
     write_text := fun _ _ => Return ();
     json_dumps := fun v => py "<" ++ type_name v ++ py " as JSON>";
     format_exc := fun e => py "Traceback (most recent call last): " ++ exn_msg e;
     not_iterable := fun v =>
       py "argument of type '" ++ type_name v ++ py "' is not iterable" |}.

Definition k0 : console := Console [] 0.

End SampleShell.

(** ** Vocabulary of the statements *)

(** A text made of whitespace only. *)
Definition all_space (s : str) : Prop := Forall (fun c => py_isspace c = true) s.

(** [i] is the position of the first, resp. last, occurrence of [c] in [s]. *)
Definition first_at (c : char) (s : str) (i : nat) : Prop :=
  s !! i = Some c /\ forall k, (k < i)%nat -> s !! k <> Some c.

Definition last_at (c : char) (s : str) (j : nat) : Prop :=
  s !! j = Some c /\ forall k, (j < k)%nat -> s !! k <> Some c.

(** The world after one more call, and after one more reading of the clock. *)
Definition called (c : call) (w : world) : world :=
  World (calls w ++ [c]) (clock_reads w).

Definition ticked (w : world) : world :=
  World (calls w) (S (clock_reads w)).

(** A result carries a [metadata] mapping with a [processing_timestamp]. *)
Definition stamped (v : value) : Prop :=
  exists d m ts,
    v = VDict d /\ d !! py "metadata" = Some (VDict m)
    /\ m !! py "processing_timestamp" = Some (VStr ts).

(** An Error Result: a mapping with an error category string. *)
Definition error_result (v : value) : Prop :=
  exists d category, v = VDict d /\ d !! py "error" = Some (VStr category).

(** The [TypeError] of [v['metadata'] = ...] on a value that is not a
    mapping. *)
Definition setitem_error (v : value) : exn :=
  match v with
  | VList _ => Exn TypeError (py "list indices must be integers or slices, not str")
  | _ => Exn TypeError (py "'" ++ type_name v
                         ++ py "' object does not support item assignment")
  end.

(** What the module relies on from [json.loads]: a JSON text begins, after
    whitespace, with a brace, a bracket, a quotation mark, a minus sign, a
    digit or a letter, never with a backtick, so a text that begins with
    the fence marker is rejected with a [JSONDecodeError]. *)
Definition rejects_fenced_text (env : Env) : Prop :=
  forall t, startswith t FENCE = true ->
    exists e, json_loads env t = Raise e /\ is_decode_error e = true.

Ltac run :=
  cbv [bind ret raise lift extern try_except now_isoformat called ticked];
  cbn [calls clock_reads].

(** ** Vocabulary of the further properties *)

(** Whatever [c] does, the effects it adds all satisfy [Q] and the
    exception it raises, if any, satisfies [P]. *)
Definition behaves (Q : effect -> Prop) (P : exn -> Prop) {A} (c : C A) : Prop :=
  forall k o k', c k = (o, k') ->
    (exists es, effects k' = effects k ++ es /\ Forall Q es)
    /\ (forall e, o = Raise e -> P e).

(** The files written, the requests submitted and the SDK calls made, in
    order. *)
Definition writes (es : list effect) : list (str * str) :=
  omap (fun e => match e with DidWrite p c => Some (p, c) | _ => None end) es.

Definition requests (es : list effect) : list str :=
  omap (fun e => match e with
                 | DidCall (CallResponsesCreate q _) => Some q
                 | _ => None
                 end) es.

Definition sdk_calls (es : list effect) : list call :=
  omap (fun e => match e with
                 | DidCall c => if is_remote c then Some c else None
                 | _ => None
                 end) es.

(** [main] is given the path [input_file], which exists and holds
    [file_content], and the SDK answers up to the registration of the
    agent. *)
Definition started (sh : Shell) (input_file file_content : str)
    (c : Client) (a : Agent) : Prop :=
  (2 <= length (argv sh))%nat
  /\ argv sh !! 1%nat = Some input_file
  /\ path_exists sh input_file = true
  /\ AIProjectClient (shell_env sh) (project_endpoint (shell_env sh)) = Return c
  /\ agents_create_version c (py "OCRTextExtractionAgent")
       (model_deployment_name (shell_env sh)) get_agent_instructions = Return a
  /\ read_text sh input_file = Return file_content.

(** How [main] ends once the [with] block is entered: the block is left,
    and an exception is reported by the two prints of lines 408-410. *)
Definition closing (sh : Shell) (r : outcome () * console) : outcome () * console :=
  let k := Console (effects (snd r) ++ [DidExit]) (clock (snd r)) in
  match fst r with
  | Return _ => (Return (), k)
  | Raise e =>
      (Return (),
       Console (effects k
                ++ [DidPrint ([10060%N] ++ py " Error: " ++ exn_msg e);
                    DidPrint (NL ++ py "Stack trace:" ++ NL ++ format_exc sh e)])
         (clock k))
  end.

(** The effects of [main] from its start to the reading of the input. *)
Definition opening (sh : Shell) (input_file : str) (a : Agent) : list effect :=
  [DidPrint (py "=== JSON Structuring Agent with GPT-4o-mini ===" ++ NL);
   DidPrint ([128196%N] ++ py " Processing file: " ++ input_file ++ NL);
   DidCall (CallAIProjectClient (project_endpoint (shell_env sh)));
   DidEnter;
   DidCall (CallCreateVersion (py "OCRTextExtractionAgent")
              (model_deployment_name (shell_env sh)) get_agent_instructions);
   DidPrint ([9989%N] ++ py " Created OCR Text Extraction Agent: "
             ++ agent_name a ++ py " (version " ++ agent_version a ++ py ")");
   DidPrint (py "   Agent visible in Foundry portal" ++ NL);
   DidRead input_file].

(** The effects of [submit] up to the request. *)
Definition asking (sh : Shell) (is_ocr_json : bool) (ocr_text n : value)
    (a : Agent) : list effect :=
  [DidPrint (py "   Type: "
             ++ (if is_ocr_json then py "OCR JSON result" else py "Raw text"));
   DidPrint (py "   Text length: " ++ format (shell_env sh) n
             ++ py " characters" ++ NL);
   DidCall CallGetOpenAIClient;
   DidPrint ([129302%N] ++ py " Sending to agent for text extraction...");
   DidCall (CallResponsesCreate (user_query (shell_env sh) ocr_text)
              (agent_name a))].

Definition is_print (e : effect) : Prop :=
  match e with DidPrint _ => True | _ => False end.

(** The files [main] may touch: it reads only the path it was given and
    writes only the output file of that path. *)
Definition touches (input_file : str) (e : effect) : Prop :=
  match e with
  | DidRead p => p = input_file
  | DidWrite p _ => p = output_file input_file
  | _ => True
  end.

(** The effects of [decode_and_save] from the decoding to the saving. *)
Definition saving (sh : Shell) (input text : str) (result : value) : list effect :=
  [DidCall (CallJsonLoads text);
   DidPrint (NL ++ py "=== Structured JSON Output ===");
   DidPrint (json_dumps sh result);
   DidWrite (output_file input) (json_dumps sh result);
   DidPrint (NL ++ [10003%N] ++ py " Structured JSON saved to: " ++ output_file input)].

(** The SDK answers the request for [ocr_text] with the response [r]. *)
Definition answered (sh : Shell) (c : Client) (a : Agent) (ocr_text : value)
    (r : Response) : Prop :=
  exists oc,
    get_openai_client c = Return oc
    /\ responses_create oc (user_query (shell_env sh) ocr_text) (agent_name a)
       = Return r.

(** * Properties *)

(** ** The definitions on small inputs *)

Example strip_example : strip (py "
  {} 	") = py "{}".
Proof. reflexivity. Qed.

Example find_example :
  find (py "```json {a}{b}") LBRACE = 8 /\ rfind (py "```json {a}{b}") RBRACE = 13
  /\ find (py "```json") LBRACE = -1 /\ rfind (py "```json") RBRACE = -1.
Proof. repeat split; reflexivity. Qed.

Example slice_example :
  slice (py "abcdef") 2 5 = py "cde" /\ slice (py "abcdef") 4 2 = []
  /\ slice (py "abcdef") (-2) 100 = py "ef".
Proof. repeat split; reflexivity. Qed.

Example fence_trim_example :
  fence_trim (py "```json {a}{b} ```") = py "{a}{b}"
  /\ fence_trim (py "see: ```{a}```") = py "see: ```{a}```"
  /\ fence_trim (py "```}{```") = [].
Proof. repeat split; reflexivity. Qed.

Example truthy_example :
  truthy (VStr []) = false /\ truthy VNone = false /\ truthy (VInt 0) = false
  /\ truthy (VList []) = false /\ truthy (VDict ∅) = false
  /\ truthy (VStr (py "0")) = true /\ truthy (VList [VNone]) = true.
Proof. repeat split; reflexivity. Qed.

Example loads_example :
  Sample.loads (pyq " {'a': [1, -20, {}], 'b': null, 'a': true} ")
  = Return (VDict {[ py "a" := VBool true; py "b" := VNone ]})
  /\ Sample.loads (py "{bad}") = Raise Sample.decode_error
  /\ Sample.loads (py "[]") = Return (VList []).
Proof. repeat split; vm_compute; reflexivity. Qed.

(** The example of the module's docstring. *)
Example output_file_example :
  output_file (py "../ocr_results/document_ocr_result.json")
  = py "../ocr_results/document_ocr_result_structured.json".
Proof. reflexivity. Qed.

(** ** Stripping *)

Lemma lstrip_all_space ws s : all_space ws -> lstrip (ws ++ s) = lstrip s.
Proof.
  induction 1 as [|c ws Hc _ IH]; simpl; [done|]. by rewrite Hc.
Qed.

Lemma lstrip_keep x c y :
  py_isspace c = false -> lstrip (x ++ c :: y) = lstrip x ++ c :: y.
Proof.
  intros Hc. induction x as [|a x IH]; simpl.
  - by rewrite Hc.
  - destruct (py_isspace a); [exact IH|done].
Qed.

Lemma lstrip_split s : exists ws, all_space ws /\ s = ws ++ lstrip s.
Proof.
  induction s as [|c s (ws & Hws & IH)]; simpl.
  - exists []. split; [constructor|done].
  - destruct (py_isspace c) eqn:Hc.
    + exists (c :: ws). split; [by constructor|]. simpl. by rewrite <- IH.
    + exists []. split; [constructor|done].
Qed.

Lemma lstrip_head s c t : lstrip s = c :: t -> py_isspace c = false.
Proof.
  induction s as [|a s IH]; simpl; [done|].
  destruct (py_isspace a) eqn:Ha; [exact IH|]. by intros [= <- _].
Qed.

Lemma lstrip_fixed c t : py_isspace c = false -> lstrip (c :: t) = c :: t.
Proof. intros Hc. simpl. by rewrite Hc. Qed.

Lemma all_space_rev ws : all_space ws -> all_space (rev ws).
Proof. unfold all_space. rewrite !Forall_forall. intros H c Hc. apply H. by apply list_elem_of_In, in_rev, list_elem_of_In. Qed.

Lemma rstrip_all_space s ws : all_space ws -> rstrip (s ++ ws) = rstrip s.
Proof.
  intros Hws. unfold rstrip. rewrite rev_app_distr.
  by rewrite lstrip_all_space by by apply all_space_rev.
Qed.

Lemma rstrip_keep x c y :
  py_isspace c = false -> rstrip (x ++ c :: y) = x ++ c :: rstrip y.
Proof.
  intros Hc. unfold rstrip.
  replace (rev (x ++ c :: y)) with (rev y ++ c :: rev x)
    by (rewrite rev_app_distr; simpl; by rewrite <- app_assoc).
  rewrite lstrip_keep by done.
  rewrite rev_app_distr. simpl. rewrite rev_involutive. by rewrite <- app_assoc.
Qed.

Lemma rstrip_split s : exists ws, all_space ws /\ s = rstrip s ++ ws.
Proof.
  destruct (lstrip_split (rev s)) as (ws & Hws & Heq).
  exists (rev ws). split; [by apply all_space_rev|].
  unfold rstrip. rewrite <- rev_app_distr, <- Heq. by rewrite rev_involutive.
Qed.

Lemma rstrip_nil : rstrip [] = [].
Proof. done. Qed.

(** Whitespace around a text does not survive [strip], whatever the text. *)
Lemma strip_surround ws1 s ws2 :
  all_space ws1 -> all_space ws2 -> strip (ws1 ++ s ++ ws2) = strip s.
Proof.
  intros H1 H2. unfold strip. rewrite lstrip_all_space by done.
  destruct (lstrip s) as [|c t] eqn:Hs.
  - destruct (lstrip_split s) as (ws & Hws & Heq). rewrite Hs, app_nil_r in Heq.
    subst s. rewrite lstrip_all_space by done.
    replace ws2 with (ws2 ++ []) by apply app_nil_r.
    rewrite lstrip_all_space by done. done.
  - destruct (lstrip_split s) as (ws & Hws & Heq). rewrite Hs in Heq.
    rewrite Heq, <- app_assoc, lstrip_all_space by done.
    simpl. rewrite (lstrip_head _ _ _ Hs).
    change (c :: t ++ ws2) with ((c :: t) ++ ws2).
    by apply rstrip_all_space.
Qed.

Lemma strip_split s :
  exists ws1 ws2, all_space ws1 /\ all_space ws2 /\ s = ws1 ++ strip s ++ ws2.
Proof.
  destruct (lstrip_split s) as (ws1 & H1 & E1).
  destruct (rstrip_split (lstrip s)) as (ws2 & H2 & E2).
  exists ws1, ws2. repeat split; try done. unfold strip. by rewrite <- E2.
Qed.

Lemma strip_idem s : strip (strip s) = strip s.
Proof.
  destruct (strip_split s) as (ws1 & ws2 & H1 & H2 & E).
  rewrite E at 2. by rewrite strip_surround.
Qed.

(** A text that begins and ends with characters that are not whitespace is
    its own [strip]. *)
Lemma strip_fixed a m b :
  py_isspace a = false -> py_isspace b = false ->
  strip (a :: m ++ [b]) = a :: m ++ [b].
Proof.
  intros Ha Hb. unfold strip. rewrite lstrip_fixed by done.
  change (a :: m ++ [b]) with ((a :: m) ++ b :: []).
  by rewrite rstrip_keep.
Qed.

(** ** Searching for one character *)

Lemma index_of_char_cons c a s :
  index_of [c] (a :: s) = if (c =? a)%N then Some O else S <$> index_of [c] s.
Proof. simpl. by rewrite andb_true_r. Qed.

Lemma rindex_of_char_cons c a s :
  rindex_of [c] (a :: s) =
  match rindex_of [c] s with
  | Some i => Some (S i)
  | None => if (c =? a)%N then Some O else None
  end.
Proof. simpl. by rewrite andb_true_r. Qed.

Lemma index_of_first c s i : index_of [c] s = Some i <-> first_at c s i.
Proof.
  revert i. induction s as [|a s IH]; intros i.
  - split; [done|]. by intros [? _].
  - rewrite index_of_char_cons. destruct (N.eqb_spec c a) as [->|Hne].
    + split.
      * intros [= <-]. split; [done|]. intros k Hk. lia.
      * intros [Hi Hlt]. destruct i as [|i]; [done|].
        destruct (Hlt O); [lia|done].
    + split.
      * destruct (index_of [c] s) as [i'|]; [|done].
        intros [= <-]. destruct (proj1 (IH i') eq_refl) as [Hi Hlt].
        split; [done|].
        intros [|k] Hk; simpl; [congruence|]. apply Hlt. lia.
      * intros [Hi Hlt]. destruct i as [|i]; simpl in Hi; [congruence|].
        assert (first_at c s i) as Hf.
        { split; [done|]. intros k Hk. apply (Hlt (S k)). lia. }
        apply IH in Hf. by rewrite Hf.
Qed.

Lemma rindex_of_none c s : rindex_of [c] s = None -> forall k, s !! k <> Some c.
Proof.
  induction s as [|a s IH]; [done|].
  rewrite rindex_of_char_cons. destruct (rindex_of [c] s); [done|].
  destruct (N.eqb_spec c a) as [->|Hne]; [done|].
  intros _ [|k]; simpl; [congruence|]. by apply IH.
Qed.

Lemma rindex_of_last c s j : rindex_of [c] s = Some j <-> last_at c s j.
Proof.
  revert j. induction s as [|a s IH]; intros j.
  - split; [done|]. by intros [? _].
  - rewrite rindex_of_char_cons. destruct (rindex_of [c] s) as [j'|] eqn:E.
    + destruct (proj1 (IH j') eq_refl) as [Hj' Hgt']. split.
      * intros [= <-]. split; [done|].
        intros [|k] Hk; [lia|]. simpl. apply Hgt'. lia.
      * intros [Hj Hgt]. destruct j as [|j].
        -- destruct (Hgt (S j')); [lia|done].
        -- simpl in Hj. f_equal. f_equal.
           destruct (Nat.lt_trichotomy j j') as [Hlt|[->|Hlt]]; [|done|].
           ++ destruct (Hgt (S j')); [lia|done].
           ++ destruct (Hgt' j); [lia|done].
    + pose proof (rindex_of_none _ _ E) as Hnone.
      destruct (N.eqb_spec c a) as [->|Hne]; split.
      * intros [= <-]. split; [done|]. intros [|k] Hk; [lia|]. apply Hnone.
      * intros [Hj _]. destruct j as [|j]; [done|]. by destruct (Hnone j).
      * done.
      * intros [Hj _]. destruct j as [|j]; simpl in Hj; [congruence|]. by destruct (Hnone j).
Qed.

Lemma first_at_unique c s i i' : first_at c s i -> first_at c s i' -> i = i'.
Proof. rewrite <- !index_of_first. congruence. Qed.

Lemma last_at_unique c s j j' : last_at c s j -> last_at c s j' -> j = j'.
Proof. rewrite <- !rindex_of_last. congruence. Qed.

Lemma index_of_elem c s : c ∈ s -> exists i, index_of [c] s = Some i.
Proof.
  induction s as [|b s IH]; [by intros ?%elem_of_nil|].
  rewrite elem_of_cons, index_of_char_cons. intros [->|Hin].
  - rewrite N.eqb_refl. by eexists.
  - destruct (c =? b)%N; [by eexists|].
    destruct (IH Hin) as [i ->]. by eexists.
Qed.

Lemma rindex_of_elem c s : c ∈ s -> exists j, rindex_of [c] s = Some j.
Proof.
  induction s as [|b s IH]; [by intros ?%elem_of_nil|].
  rewrite elem_of_cons, rindex_of_char_cons. intros [->|Hin].
  - destruct (rindex_of [b] s); [by eexists|]. rewrite N.eqb_refl. by eexists.
  - destruct (IH Hin) as [j ->]. by eexists.
Qed.

Lemma index_of_not_elem c s : c ∉ s -> index_of [c] s = None.
Proof.
  intros Hc. destruct (index_of [c] s) as [i|] eqn:E; [|done].
  apply index_of_first in E as [Hi _]. destruct Hc. by eapply list_elem_of_lookup_2.
Qed.

Lemma rindex_of_not_elem c s : c ∉ s -> rindex_of [c] s = None.
Proof.
  intros Hc. destruct (rindex_of [c] s) as [i|] eqn:E; [|done].
  apply rindex_of_last in E as [Hi _]. destruct Hc. by eapply list_elem_of_lookup_2.
Qed.

(** ** Slices *)

Lemma slice_positions (s : str) (i j : nat) :
  (i < length s)%nat -> (j < length s)%nat ->
  slice s (Z.of_nat i) (Z.of_nat j + 1) = take (S j - i) (drop i s).
Proof.
  intros Hi Hj. unfold slice, clip.
  destruct (Z.ltb_spec (Z.of_nat i) 0); [lia|].
  destruct (Z.ltb_spec (Z.of_nat j + 1) 0); [lia|].
  rewrite !Z.min_l by lia. f_equal; [|f_equal]; lia.
Qed.

Lemma inclusive_substring_from (n : nat) (s : str) (i j : nat) :
  map snd
    (List.filter (fun kc => (i <=? fst kc)%nat && (fst kc <=? j)%nat)
       (imap (fun k c => ((n + k)%nat, c)) s))
  = take (S j - Nat.max i n) (drop (i - n) s).
Proof.
  revert n. induction s as [|c s IH]; intros n.
  - by rewrite drop_nil, take_nil.
  - pose proof (IH (S n)) as IH'. cbn [Nat.add] in IH'.
    simpl. rewrite (imap_ext _ (fun k c => (S (n + k), c)))
      by (intros; simpl; f_equal; lia).
    rewrite Nat.add_0_r.
    destruct (Nat.leb_spec i n) as [Hin|Hin]; simpl.
    + replace (i - n)%nat with O by lia. rewrite drop_0.
      replace (i - S n)%nat with O in IH' by lia. rewrite drop_0 in IH'.
      destruct (Nat.leb_spec n j) as [Hnj|Hnj]; simpl.
      * rewrite IH'. replace (S j - Nat.max i n)%nat with (S (j - n)) by lia.
        simpl. do 2 f_equal. lia.
      * rewrite IH'. replace (S j - Nat.max i (S n))%nat with O by lia.
        replace (S j - Nat.max i n)%nat with O by lia. done.
    + rewrite IH'. replace (i - n)%nat with (S (i - S n)) by lia. simpl.
      f_equal. lia.
Qed.

(** The positional reading of the inclusive substring is the slice
    [s[i:j+1]]. *)
Lemma inclusive_substring_take_drop s i j :
  inclusive_substring s i j = take (S j - i) (drop i s).
Proof.
  unfold inclusive_substring.
  rewrite (imap_ext _ (fun k c => ((0 + k)%nat, c))) by done.
  rewrite inclusive_substring_from. do 2 f_equal; lia.
Qed.

(** ** The fence trim *)

Lemma first_at_lt c (s : str) i : first_at c s i -> (i < length s)%nat.
Proof. intros [H _]. by eapply lookup_lt_Some. Qed.

Lemma last_at_lt c (s : str) j : last_at c s j -> (j < length s)%nat.
Proof. intros [H _]. by eapply lookup_lt_Some. Qed.

Lemma first_at_elem c (s : str) : c ∈ s <-> exists i, first_at c s i.
Proof.
  split.
  - intros [i Hi]%index_of_elem. exists i. by apply index_of_first.
  - intros [i [Hi _]]. by eapply list_elem_of_lookup_2.
Qed.

Lemma last_at_elem c (s : str) : c ∈ s <-> exists j, last_at c s j.
Proof.
  split.
  - intros [j Hj]%rindex_of_elem. exists j. by apply rindex_of_last.
  - intros [j [Hj _]]. by eapply list_elem_of_lookup_2.
Qed.

Lemma fence_trim_unfenced t : startswith t FENCE = false -> fence_trim t = t.
Proof. intros H. unfold fence_trim. by rewrite H. Qed.

Lemma fence_trim_fenced t i j :
  startswith t FENCE = true -> first_at 123%N t i -> last_at 125%N t j ->
  fence_trim t = inclusive_substring t i j.
Proof.
  intros Hf Hi Hj. unfold fence_trim, find, rfind. rewrite Hf.
  change LBRACE with [123%N]. change RBRACE with [125%N].
  rewrite (proj2 (index_of_first _ _ _) Hi), (proj2 (rindex_of_last _ _ _) Hj).
  destruct (Z.eqb_spec (Z.of_nat i) (-1)); [lia|].
  destruct (Z.eqb_spec (Z.of_nat j) (-1)); [lia|]. simpl.
  rewrite slice_positions by eauto using first_at_lt, last_at_lt.
  by rewrite inclusive_substring_take_drop.
Qed.

Lemma fence_trim_missing_brace t :
  123%N ∉ t \/ 125%N ∉ t -> fence_trim t = t.
Proof.
  intros H. unfold fence_trim, find, rfind.
  destruct (startswith t FENCE); [|done].
  change LBRACE with [123%N]. change RBRACE with [125%N].
  destruct H as [H|H].
  - by rewrite (index_of_not_elem _ _ H).
  - rewrite (rindex_of_not_elem _ _ H). by rewrite andb_false_r.
Qed.

(** When the first [{] comes before the last [}], the substring begins with
    the one and ends with the other. *)
Lemma inclusive_substring_braces (t : str) a b i j :
  t !! i = Some a -> t !! j = Some b -> (i < j)%nat ->
  exists m, inclusive_substring t i j = a :: m ++ [b].
Proof.
  intros Hi Hj Hlt. rewrite inclusive_substring_take_drop.
  exists (take (j - S i) (drop (S i) t)).
  rewrite (drop_S _ _ _ Hi).
  replace (S j - i)%nat with (S (S (j - S i))) by lia.
  rewrite firstn_cons. f_equal.
  erewrite take_S_r; [done|]. rewrite lookup_drop. rewrite <- Hj. f_equal. lia.
Qed.

Lemma inclusive_substring_empty (t : str) i j :
  (j < i)%nat -> inclusive_substring t i j = [].
Proof.
  intros H. rewrite inclusive_substring_take_drop.
  by replace (S j - i)%nat with O by lia.
Qed.

Lemma all_space_lookup ws k c : all_space ws -> ws !! k = Some c -> py_isspace c = true.
Proof.
  unfold all_space. rewrite Forall_forall. intros H Hk. apply H.
  by eapply list_elem_of_lookup_2.
Qed.

Lemma lookup_app_space (t ws : str) k c :
  py_isspace c = false -> all_space ws ->
  (t ++ ws) !! k = Some c <-> t !! k = Some c.
Proof.
  intros Hc Hws. split.
  - intros H. destruct (decide (k < length t)%nat) as [Hk|Hk].
    + by rewrite lookup_app_l in H.
    + rewrite lookup_app_r in H by lia.
      pose proof (all_space_lookup _ _ _ Hws H). congruence.
  - intros H. by apply lookup_app_l_Some.
Qed.

Lemma first_at_app_space c (t ws : str) i :
  py_isspace c = false -> all_space ws ->
  first_at c (t ++ ws) i <-> first_at c t i.
Proof.
  intros Hc Hws. unfold first_at.
  rewrite lookup_app_space by done.
  split; intros [Hi H]; (split; [done|]); intros k Hk Hl;
    apply (H k Hk); by apply (lookup_app_space t ws).
Qed.

Lemma last_at_app_space c (t ws : str) j :
  py_isspace c = false -> all_space ws ->
  last_at c (t ++ ws) j <-> last_at c t j.
Proof.
  intros Hc Hws. unfold last_at.
  rewrite lookup_app_space by done.
  split; intros [Hj H]; (split; [done|]); intros k Hk Hl;
    apply (H k Hk); by apply (lookup_app_space t ws).
Qed.

Lemma inclusive_substring_app (t ws : str) i j :
  (j < length t)%nat ->
  inclusive_substring (t ++ ws) i j = inclusive_substring t i j.
Proof.
  intros Hj. rewrite !inclusive_substring_take_drop.
  destruct (decide (i <= length t)%nat) as [Hi|Hi].
  - rewrite drop_app_le by done. apply take_app_le. rewrite length_drop. lia.
  - by replace (S j - i)%nat with O by lia.
Qed.

Lemma startswith_fence t :
  startswith t FENCE = true <-> exists rest, t = FENCE ++ rest.
Proof.
  change FENCE with [96%N; 96%N; 96%N]. split.
  - destruct t as [|a [|b [|c rest]]]; cbn [startswith];
      rewrite ?andb_false_r; try done.
    rewrite andb_true_r.
    intros [Ha [Hb Hc]%andb_prop]%andb_prop.
    apply N.eqb_eq in Ha, Hb, Hc. subst. by exists rest.
  - intros [rest ->]. cbn [startswith app]. by rewrite !N.eqb_refl.
Qed.

(** A reply that begins with the fence keeps it when stripped. *)
Lemma strip_fenced rest : strip (FENCE ++ rest) = FENCE ++ rstrip rest.
Proof.
  change FENCE with [96%N; 96%N; 96%N]. unfold strip. cbn [app].
  rewrite lstrip_fixed by done.
  change (96 :: 96 :: 96 :: rest)%N with ([96; 96] ++ 96 :: rest)%N.
  by rewrite rstrip_keep.
Qed.

(** The reading of the fence trim on the reply as received: a reply that
    itself begins with the fence is cut to its braces. *)
Lemma decoder_input_fenced out i j :
  startswith out FENCE = true -> first_at 123%N out i -> last_at 125%N out j ->
  decoder_input out = inclusive_substring out i j.
Proof.
  intros [rest ->]%startswith_fence Hi Hj. unfold decoder_input.
  rewrite strip_fenced.
  destruct (rstrip_split rest) as (ws & Hws & E).
  remember (rstrip rest) as t eqn:Ht. clear Ht. subst rest.
  rewrite app_assoc in Hi, Hj |- *.
  apply first_at_app_space in Hi; [|done..].
  apply last_at_app_space in Hj; [|done..].
  rewrite inclusive_substring_app by eauto using last_at_lt.
  apply fence_trim_fenced; [by apply startswith_fence; eexists|done..].
Qed.

Lemma decoder_input_surround ws1 out ws2 :
  all_space ws1 -> all_space ws2 ->
  decoder_input (ws1 ++ out ++ ws2) = decoder_input out.
Proof. intros. unfold decoder_input. by rewrite strip_surround. Qed.

(** Neither end of the text given to the decoder is whitespace. *)
Lemma decoder_input_stripped out : strip (decoder_input out) = decoder_input out.
Proof.
  unfold decoder_input. set (t := strip out).
  assert (strip t = t) as Ht by apply strip_idem.
  destruct (startswith t FENCE) eqn:Hf; [|by rewrite fence_trim_unfenced].
  destruct (decide (123%N ∈ t)) as [[i Hi]%first_at_elem|H1];
    [|rewrite fence_trim_missing_brace; auto].
  destruct (decide (125%N ∈ t)) as [[j Hj]%last_at_elem|H2];
    [|rewrite fence_trim_missing_brace; auto].
  rewrite (fence_trim_fenced _ _ _ Hf Hi Hj).
  destruct (Nat.lt_trichotomy i j) as [Hlt|[->|Hlt]].
  - destruct (inclusive_substring_braces t _ _ i j (proj1 Hi) (proj1 Hj) Hlt)
      as [m ->]. by apply strip_fixed.
  - destruct Hi as [Hi _], Hj as [Hj _]. congruence.
  - by rewrite inclusive_substring_empty.
Qed.

(** ** Running the module *)

Lemma handlers_run env sf rt e w :
  handlers env sf rt e w =
  (Return (if is_decode_error e
           then decode_error_result env sf rt e (isoformat_now env (clock_reads w))
           else exception_result sf e (isoformat_now env (clock_reads w))),
   ticked w).
Proof.
  unfold handlers, on_decode_error, on_exception.
  destruct (is_decode_error e); reflexivity.
Qed.

Lemma decode_and_stamp_run env t ocr sf w :
  decode_and_stamp env t ocr sf w =
  let w1 := called (CallJsonLoads t) w in
  match json_loads env t with
  | Raise e => (Raise e, w1)
  | Return v =>
      match py_len ocr with
      | Raise e => (Raise e, ticked w1)
      | Return n =>
          (py_setitem v (py "metadata")
             (success_metadata env sf (isoformat_now env (clock_reads w)) n),
           ticked w1)
      end
  end.
Proof.
  unfold decode_and_stamp. run.
  destruct (json_loads env t); [|done]. by destruct (py_len ocr).
Qed.

Lemma structure_ocr_to_json_run env ocr sf pc w :
  structure_ocr_to_json env ocr sf pc w =
  match ask_agent env ocr pc w with
  | (Raise e, w1) => handlers env sf None e w1
  | (Return out, w1) =>
      match decode_and_stamp env (decoder_input out) ocr sf w1 with
      | (Raise e, w2) => handlers env sf (Some (decoder_input out)) e w2
      | r => r
      end
  end.
Proof. reflexivity. Qed.

Lemma stamped_decode_error_result env sf rt e ts :
  stamped (decode_error_result env sf rt e ts).
Proof. do 3 eexists. split; [reflexivity|]. split; reflexivity. Qed.

Lemma stamped_exception_result sf e ts : stamped (exception_result sf e ts).
Proof. do 3 eexists. split; [reflexivity|]. split; reflexivity. Qed.

Lemma stamped_success env sf ts n d :
  stamped (VDict (<[py "metadata" := success_metadata env sf ts n]> d)).
Proof.
  do 3 eexists. split; [reflexivity|]. split; [apply lookup_insert_eq|].
  reflexivity.
Qed.

Lemma error_decode_error_result env sf rt e ts :
  error_result (decode_error_result env sf rt e ts).
Proof. do 2 eexists. split; reflexivity. Qed.

Lemma error_exception_result sf e ts : error_result (exception_result sf e ts).
Proof. do 2 eexists. split; reflexivity. Qed.

(** Asking the agent makes remote calls only and does not read the clock;
    when it returns, its last call submitted the user query. *)
Lemma ask_agent_trace env ocr pc w o w1 :
  ask_agent env ocr pc w = (o, w1) ->
  clock_reads w1 = clock_reads w
  /\ exists cs, calls w1 = calls w ++ cs
       /\ Forall (fun c => is_remote c = true) cs
       /\ (forall out, o = Return out ->
           exists name, last cs = Some (CallResponsesCreate (user_query env ocr) name)).
Proof.
  assert (forall c w0 cs0,
    calls w0 = calls w ++ cs0 -> clock_reads w0 = clock_reads w ->
    Forall (fun c => is_remote c = true) cs0 ->
    (let* agent :=
       extern (CallCreateVersion (py "OCRTextExtractionAgent")
                 (model_deployment_name env) get_agent_instructions)
         (agents_create_version c (py "OCRTextExtractionAgent")
            (model_deployment_name env) get_agent_instructions) in
     let* openai_client := extern CallGetOpenAIClient (get_openai_client c) in
     let* response :=
       extern (CallResponsesCreate (user_query env ocr) (agent_name agent))
         (responses_create openai_client (user_query env ocr) (agent_name agent)) in
     ret (output_text response)) w0 = (o, w1) ->
    clock_reads w1 = clock_reads w
    /\ exists cs, calls w1 = calls w ++ cs
         /\ Forall (fun c => is_remote c = true) cs
         /\ (forall out, o = Return out ->
             exists name,
               last cs = Some (CallResponsesCreate (user_query env ocr) name)))
    as Hrest.
  { intros c w0 cs0 Hcs Hclk Hrem. run. rewrite Hcs, Hclk.
    destruct (agents_create_version c _ _ _) as [a|e1];
      [destruct (get_openai_client c) as [oc|e2];
       [destruct (responses_create oc _ _) as [r|e3]|]|];
      intros [= <- <-]; (split; [done|]); cbn [calls];
      rewrite <- ?app_assoc; eexists; (split; [reflexivity|]);
      (split; [rewrite ?Forall_app; repeat split; try done; by repeat constructor|]);
      intros out [=]; rewrite ?app_assoc, ?last_snoc; by eexists. }
  unfold ask_agent. destruct pc as [c|].
  - apply (Hrest c w []); [by rewrite app_nil_r|done|constructor].
  - unfold bind at 1. unfold extern at 1.
    destruct (AIProjectClient env _) as [c|e].
    + apply (Hrest c _ [CallAIProjectClient (project_endpoint env)]);
        [done|done|by repeat constructor].
    + intros [= <- <-]. split; [done|]. eexists. split; [reflexivity|].
      split; [by repeat constructor|]. by intros out [=].
Qed.

(** [structure_ocr_to_json] always returns, and what it returns is either an
    Error Result or the decoded mapping of the reply with [metadata] set. *)
Lemma structure_ocr_to_json_total env ocr sf pc w :
  exists v w',
    structure_ocr_to_json env ocr sf pc w = (Return v, w')
    /\ stamped v
    /\ (error_result v
        \/ exists out w1 d ts n,
             ask_agent env ocr pc w = (Return out, w1)
             /\ json_loads env (decoder_input out) = Return (VDict d)
             /\ py_len ocr = Return n
             /\ v = VDict (<[py "metadata" := success_metadata env sf ts n]> d)).
Proof.
  rewrite structure_ocr_to_json_run.
  assert (forall rt e w0, exists v w',
    handlers env sf rt e w0 = (Return v, w') /\ stamped v /\ error_result v)
    as Hh.
  { intros rt e w0. rewrite handlers_run. do 2 eexists. split; [done|].
    destruct (is_decode_error e);
      eauto using stamped_decode_error_result, stamped_exception_result,
        error_decode_error_result, error_exception_result. }
  destruct (ask_agent env ocr pc w) as [[out|e] w1] eqn:Hask.
  2: { destruct (Hh None e w1) as (v & w' & -> & ? & ?). eauto 10. }
  rewrite decode_and_stamp_run. cbv zeta.
  destruct (json_loads env (decoder_input out)) as [v|e] eqn:Hdec.
  2: { destruct (Hh (Some (decoder_input out)) e (called (CallJsonLoads (decoder_input out)) w1))
         as (v & w' & -> & ? & ?). eauto 10. }
  destruct (py_len ocr) as [n|e] eqn:Hlen.
  2: { destruct (Hh (Some (decoder_input out)) e
                  (ticked (called (CallJsonLoads (decoder_input out)) w1)))
         as (v' & w' & -> & ? & ?). eauto 10. }
  destruct v as [| | | | |l|d]; cbn [py_setitem];
    try (edestruct Hh as (v' & w' & -> & ? & ?); by eauto 10).
  do 2 eexists. split; [done|]. split; [apply stamped_success|].
  right. by eauto 10.
Qed.

(** The decoder is called once, after the remote calls, on [decoder_input]
    of the reply; it is not called when no reply came. *)
Lemma structure_ocr_to_json_calls env ocr sf pc w :
  calls (snd (structure_ocr_to_json env ocr sf pc w)) =
  match ask_agent env ocr pc w with
  | (Return out, w1) => calls w1 ++ [CallJsonLoads (decoder_input out)]
  | (Raise _, w1) => calls w1
  end.
Proof.
  rewrite structure_ocr_to_json_run.
  destruct (ask_agent env ocr pc w) as [[out|e] w1]; [|by rewrite handlers_run].
  rewrite decode_and_stamp_run. cbv zeta.
  destruct (json_loads env (decoder_input out)) as [v|e];
    [|by rewrite handlers_run].
  destruct (py_len ocr) as [n|e]; [|by rewrite handlers_run].
  destruct (py_setitem v _ _); [done|by rewrite handlers_run].
Qed.

Lemma process_ocr_result_run env s w :
  process_ocr_result env s w =
  let w1 := called (CallJsonLoads s) w in
  let ts := isoformat_now env (clock_reads w) in
  match json_loads env s with
  | Raise e =>
      if is_decode_error e then (Return (invalid_json_result e ts), ticked w1)
      else (Raise e, w1)
  | Return (VDict d) =>
      if negb (eq_str (default VNone (d !! py "status")) (py "success")) then
        (Return (ocr_failed_result
                   (default (VStr (py "Unknown error")) (d !! py "error"))
                   (default (VStr (py "unknown")) (d !! py "file_path")) ts),
         ticked w1)
      else if negb (truthy (default (VStr []) (d !! py "text"))) then
        (Return (no_text_result (default VNone (d !! py "file_path")) ts),
         ticked w1)
      else
        structure_ocr_to_json env (default (VStr []) (d !! py "text"))
          (default VNone (d !! py "file_path")) None w1
  | Return v =>
      (Raise (Exn AttributeError
                (py "'" ++ type_name v ++ py "' object has no attribute 'get'")),
       w1)
  end.
Proof.
  unfold process_ocr_result. run.
  destruct (json_loads env s) as [v|e]; [|by destruct (is_decode_error e)].
  destruct v as [| | | | |l|d]; try reflexivity.
  cbn [py_get].
  destruct (negb (eq_str _ _)); [done|].
  destruct (negb (truthy _)); [done|].
  match goal with |- context [structure_ocr_to_json ?e ?o ?f ?p ?w] =>
    destruct (structure_ocr_to_json_total e o f p w) as (v & w' & Hrun & _) end.
  cbn [calls clock_reads] in Hrun. by rewrite Hrun.
Qed.

(** ** The output file name *)

Lemma last_at_drop c (p : str) i n :
  last_at c p i -> (n <= i)%nat -> last_at c (drop n p) (i - n).
Proof.
  intros [Hi Hgt] Hn. split.
  - rewrite lookup_drop. by replace (n + (i - n))%nat with i by lia.
  - intros k Hk. rewrite lookup_drop. apply Hgt. lia.
Qed.

Lemma output_file_cut p i :
  last_at 46%N p i -> output_file p = take i p ++ py "_structured.json".
Proof.
  intros Hi. pose proof (last_at_lt _ _ _ Hi) as Hlt.
  unfold output_file, rsplit1, rfind. change (py ".") with [46%N].
  rewrite (proj2 (rindex_of_last _ _ _) Hi).
  destruct (Z.eqb_spec (Z.of_nat i) (-1)); [lia|]. cbn [lookup list_lookup default].
  f_equal. unfold slice, clip. cbn [Z.ltb Z.compare].
  destruct (Z.ltb_spec (Z.of_nat i) 0); [lia|].
  rewrite !Z.min_l by lia. unfold id. change (Z.to_nat 0) with O.
  rewrite drop_0. f_equal. lia.
Qed.

(** Where the last [.] of the path is in its last component, the code
    replaces the final extension; so it does on a path without any [.]. *)
Lemma output_file_replaces_extension p i :
  last_at 46%N p i -> 47%N ∉ drop i p ->
  output_file p = replace_final_extension p.
Proof.
  intros Hi Hslash. rewrite (output_file_cut _ _ Hi).
  unfold replace_final_extension, rfind. change (py "/") with [47%N].
  change (py ".") with [46%N].
  set (cut := Z.to_nat _).
  assert (cut <= i)%nat as Hcut.
  { subst cut. destruct (rindex_of [47%N] p) as [j|] eqn:Hj; [|simpl; lia].
    apply rindex_of_last in Hj as [Hj _].
    destruct (decide (j < i)%nat); [lia|]. destruct Hslash.
    apply list_elem_of_lookup. exists (j - i)%nat. rewrite lookup_drop.
    rewrite <- Hj. f_equal. lia. }
  rewrite (proj2 (rindex_of_last _ _ _) (last_at_drop _ _ _ _ Hi Hcut)).
  rewrite app_assoc, take_take_drop. do 2 f_equal. lia.
Qed.

Lemma output_file_without_dot p :
  46%N ∉ p ->
  output_file p = p ++ py "_structured.json"
  /\ output_file p = replace_final_extension p.
Proof.
  intros Hdot.
  assert (output_file p = p ++ py "_structured.json") as Hout.
  { unfold output_file, rsplit1, rfind. change (py ".") with [46%N].
    by rewrite (rindex_of_not_elem _ _ Hdot). }
  split; [done|]. rewrite Hout.
  unfold replace_final_extension. change (py ".") with [46%N].
  rewrite rindex_of_not_elem.
  - by rewrite app_assoc, take_drop.
  - intros Hin. apply Hdot. apply list_elem_of_lookup in Hin as [k Hk].
    rewrite lookup_drop in Hk. by eapply list_elem_of_lookup_2.
Qed.

(** * The claims *)

(** ** C1: what the decoder receives *)

(** C1, as stated, fails: the reply [" {}"] does not begin with a fence
    marker, yet the decoder does not receive it unchanged; it receives
    ["{}"], the reply without its leading blank. *)
Lemma unfenced_reply_is_not_passed_unchanged :
  let out := py " {}" in
  let run := structure_ocr_to_json (Sample.env (Return out))
               (VStr (py "scan")) VNone None Sample.w0 in
  startswith out FENCE = false
  /\ last (calls (snd run)) = Some (CallJsonLoads (py "{}"))
  /\ py "{}" <> out.
Proof. vm_compute. repeat split; congruence. Qed.

(** C1, amended.  Whenever the agent replies [out], [json.loads] is called
    exactly once after the remote calls, on a text such that:
    - if [out] begins with the fence marker and has a first [{] at [i] and a
      last [}] at [j], the text is the inclusive substring of [out] from [i]
      to [j] (empty when [j < i]);
    - the same holds of [out] stripped of surrounding whitespace;
    - if the stripped [out] does not begin with the fence marker, the text is
      the stripped [out]. *)
Theorem decoder_receives_normalised_reply env ocr sf pc w out w1 :
  ask_agent env ocr pc w = (Return out, w1) ->
  exists text,
    calls (snd (structure_ocr_to_json env ocr sf pc w))
      = calls w1 ++ [CallJsonLoads text]
    /\ (forall i j,
          startswith out FENCE = true ->
          first_at 123%N out i -> last_at 125%N out j ->
          text = inclusive_substring out i j)
    /\ (forall i j,
          startswith (strip out) FENCE = true ->
          first_at 123%N (strip out) i -> last_at 125%N (strip out) j ->
          text = inclusive_substring (strip out) i j)
    /\ (startswith (strip out) FENCE = false -> text = strip out).
Proof.
  intros Hask. exists (decoder_input out).
  split; [by rewrite structure_ocr_to_json_calls, Hask|].
  split; [intros i j; apply decoder_input_fenced|].
  split; [intros i j; apply fence_trim_fenced|apply fence_trim_unfenced].
Qed.

Lemma decoder_receives_normalised_reply_witness :
  let out := pyq "```json
{'document_type': 'form', 'extracted_text': {}}
```
" in
  let env := Sample.env (Return out) in
  exists text,
    calls (snd (structure_ocr_to_json env (VStr (py "scan")) VNone None Sample.w0))
      = calls (snd (ask_agent env (VStr (py "scan")) None Sample.w0))
        ++ [CallJsonLoads text]
    /\ text = pyq "{'document_type': 'form', 'extracted_text': {}}".
Proof.
  intros out env.
  destruct (decoder_receives_normalised_reply env (VStr (py "scan")) VNone None
              Sample.w0 out (snd (ask_agent env (VStr (py "scan")) None Sample.w0)))
    as (text & Hcalls & Hfenced & _); [vm_compute; reflexivity|].
  exists text. split; [exact Hcalls|].
  rewrite (Hfenced 8%nat 54%nat).
  - vm_compute. reflexivity.
  - vm_compute. reflexivity.
  - apply index_of_first. vm_compute. reflexivity.
  - apply rindex_of_last. vm_compute. reflexivity.
Defined.

(** ** C8: the reply is stripped first *)

(** C8.  The reply is stripped before the fence check and before decoding.
    Whenever the agent replies [out], the decoder is called on the fence
    trim of the stripped reply, and
    - whitespace around the reply changes nothing: a reply surrounded by
      whitespace gives the decoder what the bare reply gives it;
    - a reply whose fence marker is preceded only by whitespace is cut to
      its braces all the same;
    - what the decoder receives never begins or ends with whitespace;
    - without a fence, the decoder receives the stripped reply. *)
Theorem reply_is_stripped_before_fence_check env ocr sf pc w out w1 :
  ask_agent env ocr pc w = (Return out, w1) ->
  calls (snd (structure_ocr_to_json env ocr sf pc w))
    = calls w1 ++ [CallJsonLoads (fence_trim (strip out))]
  /\ (forall ws1 body ws2,
        all_space ws1 -> all_space ws2 -> out = ws1 ++ body ++ ws2 ->
        fence_trim (strip out) = fence_trim (strip body))
  /\ (forall ws rest i j,
        all_space ws -> out = ws ++ FENCE ++ rest ->
        first_at 123%N (FENCE ++ rest) i -> last_at 125%N (FENCE ++ rest) j ->
        fence_trim (strip out) = inclusive_substring (FENCE ++ rest) i j)
  /\ strip (fence_trim (strip out)) = fence_trim (strip out)
  /\ (startswith (strip out) FENCE = false -> fence_trim (strip out) = strip out).
Proof.
  intros Hask.
  split; [by rewrite structure_ocr_to_json_calls, Hask|].
  split; [intros ws1 body ws2 H1 H2 ->; by apply decoder_input_surround|].
  split.
  { intros ws rest i j Hws -> Hi Hj.
    replace (ws ++ FENCE ++ rest) with (ws ++ (FENCE ++ rest) ++ [])
      by by rewrite app_nil_r.
    change (fence_trim (strip ?x)) with (decoder_input x).
    rewrite decoder_input_surround by (done || constructor).
    apply decoder_input_fenced; [by apply startswith_fence; eexists|done..]. }
  split; [apply decoder_input_stripped|apply fence_trim_unfenced].
Qed.

Lemma reply_is_stripped_before_fence_check_witness :
  let out := pyq "
  ```json
{'confidence': 'high'}
```
" in
  let env := Sample.env (Return out) in
  calls (snd (structure_ocr_to_json env (VStr (py "scan")) VNone None Sample.w0))
    = calls (snd (ask_agent env (VStr (py "scan")) None Sample.w0))
      ++ [CallJsonLoads (pyq "{'confidence': 'high'}")].
Proof.
  intros out env.
  destruct (reply_is_stripped_before_fence_check env (VStr (py "scan")) VNone None
              Sample.w0 out (snd (ask_agent env (VStr (py "scan")) None Sample.w0)))
    as (Hcalls & _); [vm_compute; reflexivity|].
  rewrite Hcalls. vm_compute. reflexivity.
Defined.

(** ** C3: the metadata of a Structured Result *)

(** C3, as stated, fails in its last part.  The text sent to the model is
    the whole query, the OCR text between two fixed parts, and the stamp
    counts the OCR text alone: for [TOTAL 12] the only request of the run
    carries 217 characters and the stamp is 8.  And the stamp need not count
    characters at all: [process_ocr_result] forwards whatever is under
    [text], and for a list of two numbers the Structured Result is stamped
    2. *)
Lemma original_text_length_is_not_the_length_of_the_query :
  let env := Sample.env (Return (pyq "{'document_type': 'receipt'}")) in
  let run := structure_ocr_to_json env (VStr (py "TOTAL 12")) VNone None
               Sample.w0 in
  let forwarded := process_ocr_result env
                     (pyq "{'status': 'success', 'text': [1, 2]}") Sample.w0 in
  (exists r m q name,
     fst run = Return (VDict r)
     /\ r !! py "metadata" = Some (VDict m)
     /\ m !! py "original_text_length" = Some (VInt 8)
     /\ CallResponsesCreate q name ∈ calls (snd run)
     /\ Forall (fun c => match c with
                         | CallResponsesCreate q' _ => q' = q
                         | _ => True
                         end) (calls (snd run))
     /\ length q = 217%nat
     /\ m !! py "original_text_length" <> Some (VInt (Z.of_nat (length q))))
  /\ (exists r m,
       fst forwarded = Return (VDict r)
       /\ r !! py "document_type" = Some (VStr (py "receipt"))
       /\ r !! py "metadata" = Some (VDict m)
       /\ m !! py "original_text_length" = Some (VInt 2)).
Proof.
  split.
  - do 2 eexists.
    exists (user_query (Sample.env (Return (pyq "{'document_type': 'receipt'}")))
              (VStr (py "TOTAL 12"))).
    eexists.
    split; [vm_compute; reflexivity|].
    split; [vm_compute; reflexivity|].
    split; [vm_compute; reflexivity|].
    split; [apply (list_elem_of_lookup_2 _ 3); vm_compute; reflexivity|].
    split; [vm_compute; repeat constructor|].
    split; [vm_compute; reflexivity|].
    vm_compute. congruence.
  - do 2 eexists.
    split; [vm_compute; reflexivity|].
    repeat split; vm_compute; reflexivity.
Qed.

(** C3, amended.  When the agent replies and the reply decodes to a mapping
    [d], the function returns [d] with the key [metadata] set -- whatever
    [d] had under that key, and every other key of [d] kept -- to a mapping
    of exactly the four keys [source_file], [processing_timestamp],
    [agent_model] and [original_text_length]; the last one is
    [len(ocr_text)]: the number of characters of the OCR text when it is a
    string, the number of elements when it is a list, of keys when it is a
    mapping.  The text sent to the model is the query, in which the
    formatted OCR text -- the OCR text itself when it is a string -- stands
    between two fixed parts of 209 characters together.
    ([structure_ocr_to_json_total]: no other path returns a Structured
    Result.) *)
Theorem structured_result_metadata env ocr sf pc w out w1 d n :
  ask_agent env ocr pc w = (Return out, w1) ->
  json_loads env (decoder_input out) = Return (VDict d) ->
  py_len ocr = Return n ->
  exists r m ts w',
    structure_ocr_to_json env ocr sf pc w = (Return (VDict r), w')
    /\ r !! py "metadata" = Some (VDict m)
    /\ (forall k, k <> py "metadata" -> r !! k = d !! k)
    /\ dom m = {[ py "source_file"; py "processing_timestamp";
                  py "agent_model"; py "original_text_length" ]}
    /\ m !! py "source_file" = Some (py_or sf (VStr (py "unknown")))
    /\ m !! py "processing_timestamp" = Some (VStr ts)
    /\ m !! py "agent_model" = Some (VStr (model_deployment_name env))
    /\ m !! py "original_text_length" = Some n
    /\ (forall text, ocr = VStr text -> n = VInt (Z.of_nat (length text)))
    /\ (forall l, ocr = VList l -> n = VInt (Z.of_nat (length l)))
    /\ (forall items, ocr = VDict items -> n = VInt (Z.of_nat (size items)))
    /\ (exists name,
          last (calls w1)
          = Some (CallResponsesCreate
                    (QUERY_HEAD ++ format env ocr ++ QUERY_TAIL) name))
    /\ (forall text, ocr = VStr text -> format env ocr = text)
    /\ length (QUERY_HEAD ++ format env ocr ++ QUERY_TAIL)
       = (209 + length (format env ocr))%nat.
Proof.
  intros Hask Hdec Hlen.
  rewrite structure_ocr_to_json_run, Hask, decode_and_stamp_run, Hdec, Hlen.
  cbn [py_setitem]. cbv zeta. unfold success_metadata.
  do 4 eexists. split; [reflexivity|].
  split; [apply lookup_insert_eq|].
  split; [intros k Hk; by apply lookup_insert_ne|].
  split; [rewrite !dom_insert_L, dom_empty_L; set_solver|].
  do 4 (split; [reflexivity|]).
  split; [intros text ->; cbn in Hlen; congruence|].
  split; [intros l ->; cbn in Hlen; congruence|].
  split; [intros items ->; cbn in Hlen; congruence|].
  split.
  - destruct (ask_agent_trace _ _ _ _ _ _ Hask) as (_ & cs & -> & _ & Hlast).
    destruct (Hlast out eq_refl) as [name Hname]. exists name.
    destruct cs as [|c cs]; [done|]. by rewrite last_app_cons.
  - split; [by intros text ->|].
    rewrite !length_app.
    change (length QUERY_HEAD) with 125%nat.
    change (length QUERY_TAIL) with 84%nat. lia.
Qed.

Lemma structured_result_metadata_witness :
  let out := pyq "```json
{'document_type': 'receipt', 'metadata': {'by': 'model'}}
```" in
  let env := Sample.env (Return out) in
  exists r m,
    fst (structure_ocr_to_json env (VStr (py "TOTAL 12")) VNone None Sample.w0)
      = Return (VDict r)
    /\ r !! py "metadata" = Some (VDict m)
    /\ r !! py "document_type" = Some (VStr (py "receipt"))
    /\ m !! py "by" = None
    /\ m !! py "original_text_length" = Some (VInt 8).
Proof.
  intros out env.
  destruct (structured_result_metadata env (VStr (py "TOTAL 12")) VNone None
              Sample.w0 out
              (snd (ask_agent env (VStr (py "TOTAL 12")) None Sample.w0))
              {[ py "document_type" := VStr (py "receipt");
                 py "metadata" := VDict {[ py "by" := VStr (py "model") ]} ]}
              (VInt 8))
    as (r & m & ts & w' & Hrun & Hmeta & Hkeep & Hdom & _ & _ & _ & Hlen & _);
    [vm_compute; reflexivity..|].
  exists r, m. rewrite Hrun. split; [reflexivity|]. split; [exact Hmeta|].
  split; [rewrite Hkeep; [vm_compute; reflexivity|vm_compute; congruence]|].
  split; [|exact Hlen].
  apply not_elem_of_dom. rewrite Hdom. vm_compute. congruence.
Defined.

(** ** C4: the payload of a decoding failure *)

(** C4, as stated, fails: for the fenced reply below decoding fails and the
    Error Result carries [{bad}], the text cut to its braces, not the reply
    the model gave. *)
Lemma error_payload_is_not_the_original_reply :
  let out := py "```{bad}```" in
  let run := structure_ocr_to_json (Sample.env (Return out))
               (VStr (py "scan")) VNone None Sample.w0 in
  exists r,
    fst run = Return (VDict r)
    /\ r !! py "error" = Some (VStr (py "JSON parsing failed"))
    /\ r !! py "raw_response" = Some (VStr (py "{bad}"))
    /\ r !! py "raw_response" <> Some (VStr out).
Proof.
  eexists. split; [vm_compute; reflexivity|].
  repeat split; vm_compute; congruence.
Qed.

(** The decoder of [Sample] rejects every text that begins with the fence
    marker, as [json.loads] does: a backtick starts no JSON value. *)
Lemma sample_decoder_rejects_fenced_text reply :
  rejects_fenced_text (Sample.env reply).
Proof.
  intros t [rest ->]%startswith_fence.
  exists Sample.decode_error. split; reflexivity.
Qed.

(** C4, amended.  Let the agent reply [out].  Whenever decoding fails with a
    decoder error [e], the function returns the Error Result
    ["JSON parsing failed"] whose [error_details] is the diagnostic of [e]
    and whose [raw_response] is the text that was given to the decoder: the
    stripped reply, cut to its braces when it is fenced and has both.  In
    particular, when the stripped reply begins with the fence marker but
    lacks a [{] or a [}]: the text given to the decoder is the stripped
    reply unmodified; decoding fails, the decoder rejecting, as [json.loads]
    does, every text that begins with the fence marker; and the Error
    Result returned preserves the stripped reply -- the reply itself when
    it has no surrounding whitespace. *)
Theorem decode_failure_reports_decoder_input env ocr sf pc w out w1 :
  ask_agent env ocr pc w = (Return out, w1) ->
  (forall e,
     json_loads env (decoder_input out) = Raise e ->
     is_decode_error e = true ->
     exists r ts w',
       structure_ocr_to_json env ocr sf pc w = (Return (VDict r), w')
       /\ VDict r = decode_error_result env sf (Some (decoder_input out)) e ts
       /\ r !! py "error" = Some (VStr (py "JSON parsing failed"))
       /\ r !! py "error_details" = Some (VStr (exn_msg e))
       /\ r !! py "raw_response" = Some (VStr (decoder_input out)))
  /\ (rejects_fenced_text env ->
      startswith (strip out) FENCE = true ->
      123%N ∉ strip out \/ 125%N ∉ strip out ->
      decoder_input out = strip out
      /\ exists e r ts w',
           json_loads env (strip out) = Raise e
           /\ is_decode_error e = true
           /\ structure_ocr_to_json env ocr sf pc w = (Return (VDict r), w')
           /\ VDict r = decode_error_result env sf (Some (strip out)) e ts
           /\ r !! py "error" = Some (VStr (py "JSON parsing failed"))
           /\ r !! py "error_details" = Some (VStr (exn_msg e))
           /\ r !! py "raw_response" = Some (VStr (strip out))
           /\ (strip out = out -> r !! py "raw_response" = Some (VStr out))).
Proof.
  intros Hask.
  assert (Hgen : forall e,
            json_loads env (decoder_input out) = Raise e ->
            is_decode_error e = true ->
            exists r ts w',
              structure_ocr_to_json env ocr sf pc w = (Return (VDict r), w')
              /\ VDict r = decode_error_result env sf (Some (decoder_input out)) e ts
              /\ r !! py "error" = Some (VStr (py "JSON parsing failed"))
              /\ r !! py "error_details" = Some (VStr (exn_msg e))
              /\ r !! py "raw_response" = Some (VStr (decoder_input out))).
  { intros e Hdec He.
    rewrite structure_ocr_to_json_run, Hask, decode_and_stamp_run, Hdec.
    cbv beta iota zeta. rewrite handlers_run, He.
    do 3 eexists. split; [reflexivity|]. split; [reflexivity|].
    repeat split; reflexivity. }
  split; [exact Hgen|].
  intros Hjson Hfence Hno.
  assert (Hin : decoder_input out = strip out)
    by (unfold decoder_input; apply (fence_trim_missing_brace _ Hno)).
  split; [exact Hin|].
  destruct (Hjson _ Hfence) as (e & Hdec & He).
  rewrite <- Hin in Hdec.
  destruct (Hgen e Hdec He) as (r & ts & w' & Hrun & Hr & Herr & Hdet & Hraw).
  rewrite Hin in Hdec, Hr, Hraw.
  exists e, r, ts, w'. repeat (split; [assumption|]).
  by intros <-.
Qed.

Lemma decode_failure_reports_decoder_input_witness :
  let out := py "```json
no braces here
```" in
  let env := Sample.env (Return out) in
  exists r,
    fst (structure_ocr_to_json env (VStr (py "scan")) VNone None Sample.w0)
      = Return (VDict r)
    /\ r !! py "error" = Some (VStr (py "JSON parsing failed"))
    /\ r !! py "raw_response" = Some (VStr out).
Proof.
  intros out env.
  destruct (decode_failure_reports_decoder_input env (VStr (py "scan")) VNone None
              Sample.w0 out (snd (ask_agent env (VStr (py "scan")) None Sample.w0)))
    as [_ Hfence]; [vm_compute; reflexivity|].
  destruct Hfence as (_ & e & r & ts & w' & _ & _ & Hrun & _ & Herr & _ & _ & Hraw).
  - intros t [rest ->]%startswith_fence. eexists. split; reflexivity.
  - vm_compute; reflexivity.
  - left. compute_done.
  - exists r. rewrite Hrun. split; [reflexivity|]. split; [exact Herr|].
    apply Hraw. vm_compute; reflexivity.
Defined.

(** ** C5, C6, C9: the prior-stage gate *)

(** C5.  When the payload decodes to a mapping whose [status] is not
    ["success"] (or is absent), [process_ocr_result] returns the Error Result
    ["OCR processing failed"] whose [ocr_error] is the payload's own [error]
    (["Unknown error"] when the payload has none), and the only call made is
    the decoding of the payload: no remote call. *)
Theorem upstream_failure_short_circuits env payload d w :
  json_loads env payload = Return (VDict d) ->
  eq_str (default VNone (d !! py "status")) (py "success") = false ->
  exists r w',
    process_ocr_result env payload w = (Return (VDict r), w')
    /\ r !! py "error" = Some (VStr (py "OCR processing failed"))
    /\ r !! py "ocr_error"
       = Some (default (VStr (py "Unknown error")) (d !! py "error"))
    /\ (forall msg, d !! py "error" = Some msg -> r !! py "ocr_error" = Some msg)
    /\ calls w' = calls w ++ [CallJsonLoads payload]
    /\ remote_calls w' = remote_calls w.
Proof.
  intros Hdec Hst. rewrite process_ocr_result_run, Hdec, Hst.
  cbv beta iota zeta. cbn [negb].
  do 2 eexists. split; [reflexivity|]. split; [reflexivity|].
  split; [reflexivity|]. split.
  { intros msg Hmsg. unfold ocr_failed_result.
    rewrite lookup_insert_ne by (vm_compute; congruence).
    by rewrite lookup_insert_eq, Hmsg. }
  split; [reflexivity|].
  unfold remote_calls. cbn [ticked called calls].
  by rewrite List.filter_app, app_nil_r.
Qed.

Lemma upstream_failure_short_circuits_witness :
  let payload := pyq "{'status': 'error', 'error': 'scan failed'}" in
  let env := Sample.env (Return (py "never asked")) in
  exists r w',
    process_ocr_result env payload Sample.w0 = (Return (VDict r), w')
    /\ r !! py "ocr_error" = Some (VStr (py "scan failed"))
    /\ remote_calls w' = [].
Proof.
  intros payload env.
  destruct (upstream_failure_short_circuits env payload
              {[ py "status" := VStr (py "error");
                 py "error" := VStr (py "scan failed") ]} Sample.w0)
    as (r & w' & Hrun & _ & _ & Herr & _ & Hremote);
    [vm_compute; reflexivity..|].
  exists r, w'. split; [exact Hrun|]. split; [|exact Hremote].
  apply Herr. vm_compute. reflexivity.
Defined.

(** The gate on the text, for C6 and C9: a successful payload whose [text]
    is missing or false in Python's sense yields the ["No text extracted from
    OCR"] result, after the decoding of the payload and nothing else. *)
Lemma no_text_gate env payload d w :
  json_loads env payload = Return (VDict d) ->
  d !! py "status" = Some (VStr (py "success")) ->
  truthy (default (VStr []) (d !! py "text")) = false ->
  process_ocr_result env payload w =
  (Return (no_text_result (default VNone (d !! py "file_path"))
             (isoformat_now env (clock_reads w))),
   ticked (called (CallJsonLoads payload) w)).
Proof.
  intros Hdec Hst Htxt. rewrite process_ocr_result_run, Hdec, Hst, Htxt.
  reflexivity.
Qed.

Lemma remote_calls_decoded payload w :
  remote_calls (ticked (called (CallJsonLoads payload) w)) = remote_calls w.
Proof.
  unfold remote_calls. cbn [ticked called calls].
  by rewrite List.filter_app, app_nil_r.
Qed.

(** C6.  When the payload decodes to a mapping with [status] ["success"] and
    an empty [text], [process_ocr_result] returns the Error Result
    ["No text extracted from OCR"] and makes no remote call. *)
Theorem empty_text_short_circuits env payload d w :
  json_loads env payload = Return (VDict d) ->
  d !! py "status" = Some (VStr (py "success")) ->
  d !! py "text" = Some (VStr []) ->
  exists r w',
    process_ocr_result env payload w = (Return (VDict r), w')
    /\ r !! py "error" = Some (VStr (py "No text extracted from OCR"))
    /\ stamped (VDict r)
    /\ remote_calls w' = remote_calls w.
Proof.
  intros Hdec Hst Htxt.
  rewrite (no_text_gate env payload d w Hdec Hst) by by rewrite Htxt.
  do 2 eexists. split; [reflexivity|]. split; [reflexivity|].
  split; [|apply remote_calls_decoded].
  do 3 eexists. split; [reflexivity|]. split; reflexivity.
Qed.

Lemma empty_text_short_circuits_witness :
  let payload := pyq "{'status': 'success', 'text': ''}" in
  let env := Sample.env (Return (py "never asked")) in
  exists r w',
    process_ocr_result env payload Sample.w0 = (Return (VDict r), w')
    /\ r !! py "error" = Some (VStr (py "No text extracted from OCR"))
    /\ remote_calls w' = [].
Proof.
  intros payload env.
  destruct (empty_text_short_circuits env payload
              {[ py "status" := VStr (py "success"); py "text" := VStr [] ]}
              Sample.w0)
    as (r & w' & Hrun & Herr & _ & Hremote); [vm_compute; reflexivity..|].
  by exists r, w'.
Defined.

(** C9.  When the payload decodes to a mapping with [status] ["success"]
    whose [text] is absent or is any false value ([None], [False], [0],
    [0.0], [""], [[]], [{}]), [process_ocr_result] returns the very result
    it returns for an empty text -- the ["No text extracted from OCR"] Error
    Result, which depends on [file_path] and the clock only -- and makes no
    remote call. *)
Theorem falsy_text_is_empty_text env payload d w :
  json_loads env payload = Return (VDict d) ->
  d !! py "status" = Some (VStr (py "success")) ->
  d !! py "text" = None \/ (exists v, d !! py "text" = Some v /\ truthy v = false) ->
  exists r w',
    process_ocr_result env payload w = (Return (VDict r), w')
    /\ VDict r = no_text_result (default VNone (d !! py "file_path"))
                   (isoformat_now env (clock_reads w))
    /\ r !! py "error" = Some (VStr (py "No text extracted from OCR"))
    /\ remote_calls w' = remote_calls w
    /\ (forall payload0,
          json_loads env payload0 = Return (VDict (<[py "text" := VStr []]> d)) ->
          fst (process_ocr_result env payload0 w) = Return (VDict r)).
Proof.
  intros Hdec Hst Htxt.
  rewrite (no_text_gate env payload d w Hdec Hst)
    by (destruct Htxt as [->|(v & -> & Hv)]; done).
  do 2 eexists. split; [reflexivity|]. split; [reflexivity|].
  split; [reflexivity|]. split; [apply remote_calls_decoded|].
  intros payload0 Hdec0.
  rewrite (no_text_gate env payload0 _ w Hdec0).
  - cbn [fst]. by rewrite lookup_insert_ne by (vm_compute; congruence).
  - by rewrite lookup_insert_ne by (vm_compute; congruence).
  - by rewrite lookup_insert_eq.
Qed.

Lemma falsy_text_is_empty_text_witness :
  let env := Sample.env (Return (py "never asked")) in
  (exists r w',
     process_ocr_result env (pyq "{'status': 'success', 'text': null}") Sample.w0
       = (Return (VDict r), w')
     /\ r !! py "error" = Some (VStr (py "No text extracted from OCR"))
     /\ remote_calls w' = [])
  /\ (exists r w',
        process_ocr_result env (pyq "{'status': 'success'}") Sample.w0
          = (Return (VDict r), w')
        /\ r !! py "error" = Some (VStr (py "No text extracted from OCR"))
        /\ remote_calls w' = []).
Proof.
  intros env. split.
  - destruct (falsy_text_is_empty_text env (pyq "{'status': 'success', 'text': null}")
                {[ py "status" := VStr (py "success"); py "text" := VNone ]}
                Sample.w0)
      as (r & w' & Hrun & _ & Herr & Hremote & _);
      [vm_compute; reflexivity..| |by exists r, w'].
    right. exists VNone. split; vm_compute; reflexivity.
  - destruct (falsy_text_is_empty_text env (pyq "{'status': 'success'}")
                {[ py "status" := VStr (py "success") ]} Sample.w0)
      as (r & w' & Hrun & _ & Herr & Hremote & _);
      [vm_compute; reflexivity..| |by exists r, w'].
    left. vm_compute. reflexivity.
Defined.

(** ** C2: what crosses the boundary of the entry points *)

(** C2 fails on [process_ocr_result]: when the payload is valid JSON but not
    an object, [ocr_data.get] raises [AttributeError], which the only
    [except] clause of the function (for [JSONDecodeError]) lets through.
    The decoding of the payload is the one call made.
    ([structure_ocr_to_json_total] is the half of C2 that holds.) *)
Theorem process_ocr_result_raises_on_non_object env payload v w :
  json_loads env payload = Return v ->
  (forall d, v <> VDict d) ->
  process_ocr_result env payload w =
  (Raise (Exn AttributeError
            (py "'" ++ type_name v ++ py "' object has no attribute 'get'")),
   called (CallJsonLoads payload) w).
Proof.
  intros Hdec Hv. rewrite process_ocr_result_run, Hdec.
  destruct v; try reflexivity. by destruct (Hv d).
Qed.

Lemma process_ocr_result_raises_on_non_object_witness :
  fst (process_ocr_result (Sample.env (Return (py "never asked")))
         (py "[]") Sample.w0)
  = Raise (Exn AttributeError (py "'list' object has no attribute 'get'")).
Proof.
  rewrite (process_ocr_result_raises_on_non_object _ _ (VList []));
    [reflexivity|vm_compute; reflexivity|congruence].
Defined.

(** ** C10: every result is stamped *)

(** C10.  [structure_ocr_to_json] always returns a mapping with a [metadata]
    mapping that has a [processing_timestamp]; so does [process_ocr_result]
    whenever it returns. *)
Theorem every_result_is_stamped env :
  (forall ocr sf pc w,
     exists v w', structure_ocr_to_json env ocr sf pc w = (Return v, w')
                  /\ stamped v)
  /\ (forall payload w v w',
        process_ocr_result env payload w = (Return v, w') -> stamped v).
Proof.
  split.
  - intros ocr sf pc w.
    destruct (structure_ocr_to_json_total env ocr sf pc w)
      as (v & w' & Hrun & Hst & _). eauto.
  - intros payload w v w'. rewrite process_ocr_result_run. cbv zeta.
    destruct (json_loads env payload) as [x|e].
    2: { destruct (is_decode_error e); [|done]. intros [= <- _].
         do 3 eexists. split; [reflexivity|]. split; reflexivity. }
    destruct x as [| | | | |l|d]; try done.
    destruct (negb (eq_str _ _)).
    { intros [= <- _]. do 3 eexists. split; [reflexivity|]. split; reflexivity. }
    destruct (negb (truthy _)).
    { intros [= <- _]. do 3 eexists. split; [reflexivity|]. split; reflexivity. }
    match goal with |- context [structure_ocr_to_json ?e ?o ?f ?p ?w] =>
      destruct (structure_ocr_to_json_total e o f p w)
        as (v0 & w0 & -> & Hst & _) end.
    by intros [= <- _].
Qed.

Lemma every_result_is_stamped_witness :
  let env := Sample.env (Return (pyq "{'confidence': 'low'}")) in
  let payload := pyq "{'status': 'success', 'text': 'INVOICE 42'}" in
  exists v w',
    process_ocr_result env payload Sample.w0 = (Return v, w') /\ stamped v.
Proof.
  intros env payload.
  pose proof (proj2 (every_result_is_stamped env) payload Sample.w0) as H.
  destruct (process_ocr_result env payload Sample.w0) as [[v|e] w'] eqn:E.
  - exists v, w'. split; [reflexivity|]. by eapply H.
  - vm_compute in E. discriminate E.
Defined.

(** ** C7: the name of the output file *)

(** C7 fails on the code: for an input path whose last [.] is not in its
    last component, cutting the path at its last [.] does not replace the
    extension of the file.  The raw text file [../ocr_results/scan] is
    written to [._structured.json] in the current directory, where the
    claim names [../ocr_results/scan_structured.json]. *)
Theorem output_file_cuts_at_last_dot_of_path :
  output_file (py "../ocr_results/scan") = py "._structured.json"
  /\ replace_final_extension (py "../ocr_results/scan")
     = py "../ocr_results/scan_structured.json"
  /\ output_file (py "../ocr_results/scan")
     <> replace_final_extension (py "../ocr_results/scan").
Proof. vm_compute. repeat split; congruence. Qed.

(** * Further properties of the module *)

(** ** How a run of [structure_ocr_to_json] ends *)

(** The calls of [ask_agent], stage by stage: it stops at the first call
    that raises. *)
Lemma ask_agent_run env ocr pc w :
  ask_agent env ocr pc w =
  let made cs := World (calls w ++ cs) (clock_reads w) in
  let new := match pc with
             | None => [CallAIProjectClient (project_endpoint env)]
             | Some _ => []
             end in
  let reg := CallCreateVersion (py "OCRTextExtractionAgent")
               (model_deployment_name env) get_agent_instructions in
  match match pc with
        | None => AIProjectClient env (project_endpoint env)
        | Some c => Return c
        end with
  | Raise e => (Raise e, made new)
  | Return c =>
      match agents_create_version c (py "OCRTextExtractionAgent")
              (model_deployment_name env) get_agent_instructions with
      | Raise e => (Raise e, made (new ++ [reg]))
      | Return a =>
          match get_openai_client c with
          | Raise e => (Raise e, made (new ++ [reg; CallGetOpenAIClient]))
          | Return oc =>
              let req := CallResponsesCreate (user_query env ocr) (agent_name a) in
              (match responses_create oc (user_query env ocr) (agent_name a) with
               | Return r => Return (output_text r)
               | Raise e => Raise e
               end,
               made (new ++ [reg; CallGetOpenAIClient; req]))
          end
      end
  end.
Proof.
  unfold ask_agent. run. destruct w as [cs n]. cbn [calls clock_reads].
  destruct pc as [c|]; [|destruct (AIProjectClient env _) as [c|e]];
    cbn [calls clock_reads app]; rewrite ?app_nil_r; try reflexivity;
    (destruct (agents_create_version c _ _ _) as [a|e1];
     [destruct (get_openai_client c) as [oc|e2];
      [destruct (responses_create oc _ _) as [r|e3]|]|]);
    cbn [calls clock_reads]; rewrite <- ?app_assoc; reflexivity.
Qed.

(** Every way a run of [structure_ocr_to_json] can end. *)
Lemma structure_ocr_to_json_cases env ocr sf pc w :
  structure_ocr_to_json env ocr sf pc w =
  let failed rt e w0 :=
    (Return (if is_decode_error e
             then decode_error_result env sf rt e (isoformat_now env (clock_reads w0))
             else exception_result sf e (isoformat_now env (clock_reads w0))),
     ticked w0) in
  match ask_agent env ocr pc w with
  | (Raise e, w1) => failed None e w1
  | (Return out, w1) =>
      let t := decoder_input out in
      let w2 := called (CallJsonLoads t) w1 in
      match json_loads env t with
      | Raise e => failed (Some t) e w2
      | Return v =>
          match py_len ocr with
          | Raise e => failed (Some t) e (ticked w2)
          | Return n =>
              match py_setitem v (py "metadata")
                      (success_metadata env sf (isoformat_now env (clock_reads w1)) n) with
              | Return r => (Return r, ticked w2)
              | Raise e => failed (Some t) e (ticked w2)
              end
          end
      end
  end.
Proof.
  rewrite structure_ocr_to_json_run. cbv zeta.
  destruct (ask_agent env ocr pc w) as [[out|e] w1]; [|by rewrite handlers_run].
  rewrite decode_and_stamp_run. cbv zeta.
  destruct (json_loads env (decoder_input out)) as [v|e];
    [|by rewrite handlers_run].
  destruct (py_len ocr) as [n|e]; [|by rewrite handlers_run].
  destruct (py_setitem v _ _); [done|by rewrite handlers_run].
Qed.

(** X1.  [structure_ocr_to_json] never raises, whatever the SDK, the decoder
    and the arguments do: it returns a mapping, which is a
    ["JSON parsing failed"] or ["Processing failed"] Error Result, or else
    the mapping decoded from the reply with only its [metadata] key
    changed. *)
Theorem structure_ocr_to_json_never_raises env ocr sf pc w :
  exists d w',
    structure_ocr_to_json env ocr sf pc w = (Return (VDict d), w')
    /\ (d !! py "error" = Some (VStr (py "JSON parsing failed"))
        \/ d !! py "error" = Some (VStr (py "Processing failed"))
        \/ exists out w1 d0,
             ask_agent env ocr pc w = (Return out, w1)
             /\ json_loads env (decoder_input out) = Return (VDict d0)
             /\ forall k, k <> py "metadata" -> d !! k = d0 !! k).
Proof.
  rewrite structure_ocr_to_json_cases. cbv zeta.
  assert (forall rt e ts,
    exists d,
      (if is_decode_error e then decode_error_result env sf rt e ts
       else exception_result sf e ts) = VDict d
      /\ (d !! py "error" = Some (VStr (py "JSON parsing failed"))
          \/ d !! py "error" = Some (VStr (py "Processing failed")))) as Hf.
  { intros rt e ts. destruct (is_decode_error e); eexists; (split; [reflexivity|]);
      [left|right]; reflexivity. }
  destruct (ask_agent env ocr pc w) as [[out|e] w1] eqn:Hask.
  2: { destruct (Hf None e (isoformat_now env (clock_reads w1))) as (d & -> & H).
       do 2 eexists. split; [reflexivity|]. tauto. }
  destruct (json_loads env (decoder_input out)) as [v|e] eqn:Hdec.
  2: { edestruct Hf as (d & -> & H). do 2 eexists. split; [reflexivity|]. tauto. }
  destruct (py_len ocr) as [n|e].
  2: { edestruct Hf as (d & -> & H). do 2 eexists. split; [reflexivity|]. tauto. }
  destruct v as [| | | | |l|d0]; cbn [py_setitem];
    try (edestruct Hf as (d & -> & H); do 2 eexists; split; [reflexivity|]; tauto).
  do 2 eexists. split; [reflexivity|]. right. right.
  exists out, w1, d0. repeat split; try done.
  intros k Hk. by apply lookup_insert_ne.
Qed.

(** X2.  When a call to the SDK raises an exception [e] that is not a
    decoder error, the function returns the ["Processing failed"] Error
    Result: [error_details] is [str(e)], there is no [raw_response], the
    [metadata] has [source_file] and [processing_timestamp] but no
    [agent_model], the decoder is not called and the clock is read once. *)
Theorem transport_failure_is_reported env ocr sf pc w e w1 :
  ask_agent env ocr pc w = (Raise e, w1) ->
  is_decode_error e = false ->
  exists d m w',
    structure_ocr_to_json env ocr sf pc w = (Return (VDict d), w')
    /\ d !! py "error" = Some (VStr (py "Processing failed"))
    /\ d !! py "error_details" = Some (VStr (exn_msg e))
    /\ d !! py "raw_response" = None
    /\ d !! py "metadata" = Some (VDict m)
    /\ m !! py "source_file" = Some (py_or sf (VStr (py "unknown")))
    /\ m !! py "processing_timestamp"
       = Some (VStr (isoformat_now env (clock_reads w)))
    /\ m !! py "agent_model" = None
    /\ calls w' = calls w1
    /\ clock_reads w' = S (clock_reads w).
Proof.
  intros Hask He. rewrite structure_ocr_to_json_cases, Hask. cbv beta iota zeta.
  rewrite He. destruct (ask_agent_trace _ _ _ _ _ _ Hask) as [Hclk _].
  unfold ticked. rewrite Hclk. do 3 eexists. repeat split; reflexivity.
Qed.

Lemma transport_failure_is_reported_witness :
  let e := Exn OtherException (py "401 Unauthorized") in
  let env := Sample.env (Raise e) in
  exists d,
    fst (structure_ocr_to_json env (VStr (py "scan")) VNone None Sample.w0)
      = Return (VDict d)
    /\ d !! py "error_details" = Some (VStr (py "401 Unauthorized"))
    /\ d !! py "raw_response" = None.
Proof.
  intros e env.
  destruct (transport_failure_is_reported env (VStr (py "scan")) VNone None
              Sample.w0 e (snd (ask_agent env (VStr (py "scan")) None Sample.w0)))
    as (d & m & w' & Hrun & _ & Hdet & Hraw & _); [vm_compute; reflexivity..|].
  exists d. by rewrite Hrun.
Defined.

(** X3.  When a call to the SDK itself raises a [JSONDecodeError], no reply
    was received and the variable [response_text] is not bound: the
    ["JSON parsing failed"] Error Result then carries the placeholder
    ["No response"] as [raw_response], and the decoder was not called. *)
Theorem decode_error_without_reply env ocr sf pc w e w1 :
  ask_agent env ocr pc w = (Raise e, w1) ->
  is_decode_error e = true ->
  exists d w',
    structure_ocr_to_json env ocr sf pc w = (Return (VDict d), w')
    /\ d !! py "error" = Some (VStr (py "JSON parsing failed"))
    /\ d !! py "error_details" = Some (VStr (exn_msg e))
    /\ d !! py "raw_response" = Some (VStr (py "No response"))
    /\ calls w' = calls w1.
Proof.
  intros Hask He. rewrite structure_ocr_to_json_cases, Hask. cbv beta iota zeta.
  rewrite He. do 2 eexists. repeat split; reflexivity.
Qed.

Lemma decode_error_without_reply_witness :
  let e := Exn JSONDecodeError (py "Expecting value: line 1 column 1 (char 0)") in
  let env := Sample.env (Raise e) in
  exists d,
    fst (structure_ocr_to_json env (VStr (py "scan")) VNone None Sample.w0)
      = Return (VDict d)
    /\ d !! py "raw_response" = Some (VStr (py "No response")).
Proof.
  intros e env.
  destruct (decode_error_without_reply env (VStr (py "scan")) VNone None
              Sample.w0 e (snd (ask_agent env (VStr (py "scan")) None Sample.w0)))
    as (d & w' & Hrun & _ & _ & Hraw & _); [vm_compute; reflexivity..|].
  exists d. by rewrite Hrun.
Defined.

(** X4.  A reply that is valid JSON but not an object (a list, a string, a
    number, [true], [false], [null]) is not a decoding failure: the
    assignment of [metadata] raises [TypeError] and the function returns the
    ["Processing failed"] Error Result, with the message of that error,
    without [raw_response], after reading the clock twice. *)
Theorem non_object_reply_is_processing_failure env (text : str) sf pc w out w1 v :
  ask_agent env (VStr text) pc w = (Return out, w1) ->
  json_loads env (decoder_input out) = Return v ->
  (forall d, v <> VDict d) ->
  exists d w',
    structure_ocr_to_json env (VStr text) sf pc w = (Return (VDict d), w')
    /\ d !! py "error" = Some (VStr (py "Processing failed"))
    /\ d !! py "error_details" = Some (VStr (exn_msg (setitem_error v)))
    /\ d !! py "raw_response" = None
    /\ clock_reads w' = S (S (clock_reads w)).
Proof.
  intros Hask Hdec Hv. rewrite structure_ocr_to_json_cases, Hask. cbv beta iota zeta.
  rewrite Hdec. cbn [py_len].
  destruct (ask_agent_trace _ _ _ _ _ _ Hask) as [Hclk _].
  destruct v as [| | | | |l|d0]; try (by destruct (Hv d0));
    cbn [py_setitem is_decode_error exn_cls]; unfold ticked, called;
    cbn [clock_reads calls]; rewrite Hclk; do 2 eexists;
    repeat split; reflexivity.
Qed.

Lemma non_object_reply_is_processing_failure_witness :
  let env := Sample.env (Return (py "[1, 2]")) in
  exists d,
    fst (structure_ocr_to_json env (VStr (py "scan")) VNone None Sample.w0)
      = Return (VDict d)
    /\ d !! py "error" = Some (VStr (py "Processing failed"))
    /\ d !! py "error_details"
       = Some (VStr (py "list indices must be integers or slices, not str")).
Proof.
  intros env.
  destruct (non_object_reply_is_processing_failure env (py "scan") VNone None
              Sample.w0 (py "[1, 2]")
              (snd (ask_agent env (VStr (py "scan")) None Sample.w0))
              (VList [VInt 1; VInt 2]))
    as (d & w' & Hrun & Herr & Hdet & _);
    [vm_compute; reflexivity|vm_compute; reflexivity|congruence|].
  exists d. by rewrite Hrun.
Defined.

(** Past the gate: a successful payload with a true [text] is handed to
    [structure_ocr_to_json], with the payload's [file_path] and no client;
    the [except] clause of [process_ocr_result] has nothing to catch. *)
Lemma gate_passes env payload d ocr w :
  json_loads env payload = Return (VDict d) ->
  d !! py "status" = Some (VStr (py "success")) ->
  d !! py "text" = Some ocr -> truthy ocr = true ->
  process_ocr_result env payload w =
  structure_ocr_to_json env ocr (default VNone (d !! py "file_path")) None
    (called (CallJsonLoads payload) w).
Proof.
  intros Hdec Hst Htxt Htruthy.
  rewrite process_ocr_result_run, Hdec, Hst, Htxt. cbv beta iota zeta.
  change (default VNone (Some ?x)) with x.
  change (default (VStr []) (Some ?x)) with x.
  unfold eq_str. rewrite bool_decide_eq_true_2 by done.
  by rewrite Htruthy.
Qed.

(** X5.  [process_ocr_result] does not check that [text] is a string.  A
    payload whose [text] is a number other than zero, or [true], passes the
    gate, the model is queried with its printed form, and whatever mapping
    the reply decodes to is discarded: [len(ocr_text)] raises [TypeError]
    and the result is the ["Processing failed"] Error Result. *)
Theorem unsized_text_is_queried_then_fails env payload d ocr w out w1 d0 e :
  json_loads env payload = Return (VDict d) ->
  d !! py "status" = Some (VStr (py "success")) ->
  d !! py "text" = Some ocr -> truthy ocr = true ->
  py_len ocr = Raise e ->
  ask_agent env ocr None (called (CallJsonLoads payload) w) = (Return out, w1) ->
  json_loads env (decoder_input out) = Return (VDict d0) ->
  exists r name w',
    process_ocr_result env payload w = (Return (VDict r), w')
    /\ r !! py "error" = Some (VStr (py "Processing failed"))
    /\ r !! py "error_details" = Some (VStr (exn_msg e))
    /\ exn_cls e = TypeError
    /\ CallResponsesCreate (QUERY_HEAD ++ py_repr env ocr ++ QUERY_TAIL) name
       ∈ calls w'.
Proof.
  intros Hdec Hst Htxt Htruthy Hlen Hask Hdec0.
  rewrite (gate_passes env payload d ocr w Hdec Hst Htxt Htruthy).
  rewrite structure_ocr_to_json_cases, Hask. cbv beta iota zeta.
  rewrite Hdec0, Hlen.
  assert (exn_cls e = TypeError /\ format env ocr = py_repr env ocr) as [Hcls Hfmt].
  { destruct ocr; try discriminate Hlen; by injection Hlen as <-. }
  unfold is_decode_error. rewrite Hcls.
  destruct (ask_agent_trace _ _ _ _ _ _ Hask) as (_ & cs & Hcs & _ & Hlast).
  destruct (Hlast out eq_refl) as [name Hname].
  do 3 eexists. split; [reflexivity|]. do 3 (split; [reflexivity|]).
  unfold ticked, called. cbn [calls]. rewrite Hcs.
  apply elem_of_app. left. apply elem_of_app. right.
  apply last_Some_elem_of. rewrite Hname. unfold user_query. by rewrite Hfmt.
Qed.

Lemma unsized_text_is_queried_then_fails_witness :
  let env := Sample.env (Return (pyq "{'document_type': 'other'}")) in
  exists r,
    fst (process_ocr_result env (pyq "{'status': 'success', 'text': 5}") Sample.w0)
      = Return (VDict r)
    /\ r !! py "error" = Some (VStr (py "Processing failed"))
    /\ r !! py "error_details"
       = Some (VStr (py "object of type 'int' has no len()")).
Proof.
  intros env.
  destruct (unsized_text_is_queried_then_fails env
              (pyq "{'status': 'success', 'text': 5}")
              {[ py "status" := VStr (py "success"); py "text" := VInt 5 ]}
              (VInt 5) Sample.w0 (pyq "{'document_type': 'other'}")
              (snd (ask_agent env (VInt 5) None
                      (called (CallJsonLoads (pyq "{'status': 'success', 'text': 5}"))
                         Sample.w0)))
              {[ py "document_type" := VStr (py "other") ]}
              (Exn TypeError (py "object of type 'int' has no len()")))
    as (r & name & w' & Hrun & Herr & Hdet & _); [vm_compute; reflexivity..|].
  exists r. by rewrite Hrun.
Defined.

(** X6.  A payload that is not JSON gives the ["Invalid OCR result JSON"]
    Error Result with the decoder's diagnostic; its [metadata] has a
    [processing_timestamp] and no [source_file]; no remote call is made. *)
Theorem invalid_payload_is_reported env payload e w :
  json_loads env payload = Raise e ->
  is_decode_error e = true ->
  exists r m w',
    process_ocr_result env payload w = (Return (VDict r), w')
    /\ r !! py "error" = Some (VStr (py "Invalid OCR result JSON"))
    /\ r !! py "error_details" = Some (VStr (exn_msg e))
    /\ r !! py "metadata" = Some (VDict m)
    /\ m !! py "processing_timestamp"
       = Some (VStr (isoformat_now env (clock_reads w)))
    /\ m !! py "source_file" = None
    /\ remote_calls w' = remote_calls w.
Proof.
  intros Hdec He. rewrite process_ocr_result_run, Hdec. cbv beta iota zeta.
  rewrite He. do 3 eexists. split; [reflexivity|].
  do 5 (split; [reflexivity|]). apply remote_calls_decoded.
Qed.

Lemma invalid_payload_is_reported_witness :
  let env := Sample.env (Return (py "never asked")) in
  exists r w',
    process_ocr_result env (py "status: success") Sample.w0 = (Return (VDict r), w')
    /\ r !! py "error" = Some (VStr (py "Invalid OCR result JSON"))
    /\ remote_calls w' = [].
Proof.
  intros env.
  destruct (invalid_payload_is_reported env (py "status: success")
              Sample.decode_error Sample.w0)
    as (r & m & w' & Hrun & Herr & _ & _ & _ & _ & Hremote);
    [vm_compute; reflexivity..|].
  by exists r, w'.
Defined.

(** X7.  For a successful payload with a non-empty [text], the result of
    [process_ocr_result] is the result of [structure_ocr_to_json] on that
    text: when the reply decodes to a mapping, the mapping is returned with
    its [metadata] set, [source_file] being the payload's [file_path]
    (["unknown"] when it is absent or false) and [original_text_length] the
    length of [text].  The first call after the decoding of the payload
    builds a new client. *)
Theorem successful_payload_is_structured env payload d (text : str) w out w1 d0 :
  json_loads env payload = Return (VDict d) ->
  d !! py "status" = Some (VStr (py "success")) ->
  d !! py "text" = Some (VStr text) -> text <> [] ->
  ask_agent env (VStr text) None (called (CallJsonLoads payload) w)
    = (Return out, w1) ->
  json_loads env (decoder_input out) = Return (VDict d0) ->
  exists r m cs w',
    process_ocr_result env payload w = (Return (VDict r), w')
    /\ r !! py "metadata" = Some (VDict m)
    /\ (forall k, k <> py "metadata" -> r !! k = d0 !! k)
    /\ m !! py "source_file"
       = Some (py_or (default VNone (d !! py "file_path")) (VStr (py "unknown")))
    /\ m !! py "original_text_length" = Some (VInt (Z.of_nat (length text)))
    /\ calls w' = calls w ++ CallJsonLoads payload
                     :: CallAIProjectClient (project_endpoint env) :: cs.
Proof.
  intros Hdec Hst Htxt Hne Hask Hdec0.
  rewrite (gate_passes env payload d (VStr text) w Hdec Hst Htxt)
    by (cbn [truthy]; by rewrite bool_decide_eq_false_2).
  rewrite structure_ocr_to_json_cases, Hask. cbv beta iota zeta.
  rewrite Hdec0. cbn [py_len py_setitem]. unfold success_metadata.
  rewrite ask_agent_run in Hask. cbv beta iota zeta in Hask.
  destruct (AIProjectClient env _) as [c|?]; [|done].
  destruct (agents_create_version c _ _ _) as [a|?]; [|done].
  destruct (get_openai_client c) as [oc|?]; [|done].
  injection Hask as _ <-.
  do 4 eexists. split; [reflexivity|]. split; [apply lookup_insert_eq|].
  split; [intros k Hk; by apply lookup_insert_ne|].
  do 2 (split; [reflexivity|]).
  unfold ticked, called. cbn [calls app]. by rewrite <- !app_assoc.
Qed.

Lemma successful_payload_is_structured_witness :
  let env := Sample.env (Return (pyq "{'document_type': 'invoice'}")) in
  let payload :=
    pyq "{'status': 'success', 'text': 'INVOICE 42', 'file_path': 'scan.jpg'}" in
  exists r m,
    fst (process_ocr_result env payload Sample.w0) = Return (VDict r)
    /\ r !! py "document_type" = Some (VStr (py "invoice"))
    /\ r !! py "metadata" = Some (VDict m)
    /\ m !! py "source_file" = Some (VStr (py "scan.jpg"))
    /\ m !! py "original_text_length" = Some (VInt 10).
Proof.
  intros env payload.
  destruct (successful_payload_is_structured env payload
              {[ py "status" := VStr (py "success");
                 py "text" := VStr (py "INVOICE 42");
                 py "file_path" := VStr (py "scan.jpg") ]}
              (py "INVOICE 42") Sample.w0 (pyq "{'document_type': 'invoice'}")
              (snd (ask_agent env (VStr (py "INVOICE 42")) None
                      (called (CallJsonLoads payload) Sample.w0)))
              {[ py "document_type" := VStr (py "invoice") ]})
    as (r & m & cs & w' & Hrun & Hmeta & Hkeep & Hsrc & Hlen & _);
    [vm_compute; reflexivity|vm_compute; reflexivity|vm_compute; reflexivity
    |vm_compute; congruence|vm_compute; reflexivity|vm_compute; reflexivity|].
  exists r, m. rewrite Hrun. split; [reflexivity|].
  split; [rewrite Hkeep; [vm_compute; reflexivity|vm_compute; congruence]|].
  split; [exact Hmeta|]. split; [|exact Hlen].
  rewrite Hsrc. vm_compute. reflexivity.
Defined.

(** X8.  The two gates do not default [source_file] alike.  When the prior
    stage failed, [metadata.source_file] is the payload's [file_path] as it
    is -- also [null] or [""] -- and ["unknown"] only when the key is
    absent; when the text is empty, a [file_path] that is absent, [null] or
    [""] all become ["unknown"]. *)
Theorem gates_default_source_file_differently env payload d w :
  json_loads env payload = Return (VDict d) ->
  (eq_str (default VNone (d !! py "status")) (py "success") = false ->
   exists r m w',
     process_ocr_result env payload w = (Return (VDict r), w')
     /\ r !! py "metadata" = Some (VDict m)
     /\ m !! py "source_file"
        = Some (default (VStr (py "unknown")) (d !! py "file_path")))
  /\ (d !! py "status" = Some (VStr (py "success")) ->
      truthy (default (VStr []) (d !! py "text")) = false ->
      exists r m w',
        process_ocr_result env payload w = (Return (VDict r), w')
        /\ r !! py "metadata" = Some (VDict m)
        /\ m !! py "source_file"
           = Some (if truthy (default VNone (d !! py "file_path"))
                   then default VNone (d !! py "file_path")
                   else VStr (py "unknown"))).
Proof.
  intros Hdec. split.
  - intros Hst. rewrite process_ocr_result_run, Hdec.
    cbv beta iota zeta. rewrite Hst. cbn [negb].
    do 3 eexists. repeat split; reflexivity.
  - intros Hst Htxt. rewrite (no_text_gate env payload d w Hdec Hst Htxt).
    do 3 eexists. repeat split; reflexivity.
Qed.

Lemma gates_default_source_file_differently_witness :
  let env := Sample.env (Return (py "never asked")) in
  (exists r m,
     fst (process_ocr_result env
            (pyq "{'status': 'error', 'file_path': null}") Sample.w0)
       = Return (VDict r)
     /\ r !! py "metadata" = Some (VDict m)
     /\ m !! py "source_file" = Some VNone)
  /\ (exists r m,
        fst (process_ocr_result env
               (pyq "{'status': 'success', 'file_path': null}") Sample.w0)
          = Return (VDict r)
        /\ r !! py "metadata" = Some (VDict m)
        /\ m !! py "source_file" = Some (VStr (py "unknown"))).
Proof.
  intros env. split.
  - destruct (gates_default_source_file_differently env
                (pyq "{'status': 'error', 'file_path': null}")
                {[ py "status" := VStr (py "error"); py "file_path" := VNone ]}
                Sample.w0) as [H _]; [vm_compute; reflexivity|].
    destruct H as (r & m & w' & Hrun & Hmeta & Hsrc); [vm_compute; reflexivity|].
    exists r, m. rewrite Hrun. split; [reflexivity|]. split; [exact Hmeta|].
    rewrite Hsrc. vm_compute. reflexivity.
  - destruct (gates_default_source_file_differently env
                (pyq "{'status': 'success', 'file_path': null}")
                {[ py "status" := VStr (py "success"); py "file_path" := VNone ]}
                Sample.w0) as [_ H]; [vm_compute; reflexivity|].
    destruct H as (r & m & w' & Hrun & Hmeta & Hsrc); [vm_compute; reflexivity..|].
    exists r, m. rewrite Hrun. split; [reflexivity|]. split; [exact Hmeta|].
    rewrite Hsrc. vm_compute. reflexivity.
Defined.

(** X9.  One run of [structure_ocr_to_json] makes its calls in one fixed
    order, each one only when the one before it returned, and stops at the
    first that raises: a new client is built only when none was passed;
    when there is a client, the agent ["OCRTextExtractionAgent"] is
    registered with the configured model and the instructions; when that
    returned, the OpenAI client is fetched; when that returned, one request
    carrying the user query is submitted under the name of the registered
    agent; and when the model replied, the decoder is called, once, on the
    normalised reply.  These are all the calls of the run: nothing is
    retried, and the handlers call nothing. *)
Theorem calls_follow_one_script env ocr sf pc w :
  calls (snd (structure_ocr_to_json env ocr sf pc w)) =
  calls w
  ++ match pc with
     | None => [CallAIProjectClient (project_endpoint env)]
     | Some _ => []
     end
  ++ match match pc with
           | None => AIProjectClient env (project_endpoint env)
           | Some c => Return c
           end with
     | Raise _ => []
     | Return c =>
         CallCreateVersion (py "OCRTextExtractionAgent")
           (model_deployment_name env) get_agent_instructions
         :: match agents_create_version c (py "OCRTextExtractionAgent")
                    (model_deployment_name env) get_agent_instructions with
            | Raise _ => []
            | Return a =>
                CallGetOpenAIClient
                :: match get_openai_client c with
                   | Raise _ => []
                   | Return oc =>
                       CallResponsesCreate (user_query env ocr) (agent_name a)
                       :: match responses_create oc (user_query env ocr)
                                  (agent_name a) with
                          | Raise _ => []
                          | Return r =>
                              [CallJsonLoads (decoder_input (output_text r))]
                          end
                   end
            end
     end.
Proof.
  rewrite structure_ocr_to_json_calls, ask_agent_run. cbv beta iota zeta.
  set (new := match pc with None => _ | Some _ => [] end).
  destruct (match pc with None => _ | Some c => Return c end) as [c|e];
    [|by rewrite app_nil_r].
  destruct (agents_create_version c _ _ _) as [a|e]; [|done].
  destruct (get_openai_client c) as [oc|e]; [|done].
  destruct (responses_create oc _ _) as [r|e]; cbn [calls]; [|done].
  by rewrite <- !app_assoc.
Qed.

(** ** The normaliser *)

Lemma fence_trim_idem t : fence_trim (fence_trim t) = fence_trim t.
Proof.
  destruct (startswith t FENCE) eqn:Hf;
    [|by rewrite !(fence_trim_unfenced t Hf)].
  destruct (decide (123%N ∈ t)) as [[i Hi]%first_at_elem|H1];
    [|by rewrite !(fence_trim_missing_brace t (or_introl H1))].
  destruct (decide (125%N ∈ t)) as [[j Hj]%last_at_elem|H2];
    [|by rewrite !(fence_trim_missing_brace t (or_intror H2))].
  rewrite (fence_trim_fenced _ _ _ Hf Hi Hj).
  destruct (Nat.lt_trichotomy i j) as [Hlt|[->|Hlt]].
  - destruct (inclusive_substring_braces t _ _ i j (proj1 Hi) (proj1 Hj) Hlt)
      as [m ->]. by apply fence_trim_unfenced.
  - destruct Hi as [Hi _], Hj as [Hj _]. congruence.
  - by rewrite inclusive_substring_empty.
Qed.

(** X10.  Normalising is idempotent: the text given to the decoder, taken
    as a reply, is given to the decoder unchanged. *)
Theorem decoder_input_idempotent out :
  decoder_input (decoder_input out) = decoder_input out.
Proof.
  unfold decoder_input at 1. rewrite decoder_input_stripped.
  unfold decoder_input. apply fence_trim_idem.
Qed.

Lemma fence_trim_infix t : exists pre post, t = pre ++ fence_trim t ++ post.
Proof.
  unfold fence_trim.
  destruct (startswith t FENCE); [|exists [], []; by rewrite app_nil_r].
  destruct (negb _ && negb _); [|exists [], []; by rewrite app_nil_r].
  unfold slice. cbv zeta.
  match goal with |- context [take ?n (drop ?a t)] =>
    exists (take a t), (drop n (drop a t)) end.
  by rewrite !take_drop.
Qed.

(** X11.  The normaliser only cuts: the text given to the decoder is a
    contiguous part of the reply, so it is never longer than the reply and
    holds no character the model did not send. *)
Theorem decoder_input_is_part_of_reply out :
  (exists pre post, out = pre ++ decoder_input out ++ post)
  /\ (length (decoder_input out) <= length out)%nat.
Proof.
  assert (exists pre post, out = pre ++ decoder_input out ++ post) as H.
  { destruct (strip_split out) as (ws1 & ws2 & _ & _ & E).
    destruct (fence_trim_infix (strip out)) as (pre & post & E').
    exists (ws1 ++ pre), (post ++ ws2). unfold decoder_input.
    rewrite E at 1. rewrite E' at 1. by rewrite <- !app_assoc. }
  split; [done|]. destruct H as (pre & post & E).
  rewrite E at 2. rewrite !length_app. lia.
Qed.

Lemma index_of_app c (pre rest : str) :
  c ∉ pre -> index_of [c] (pre ++ c :: rest) = Some (length pre).
Proof.
  intros Hc. induction pre as [|a pre IH]; cbn [app length].
  - by rewrite index_of_char_cons, N.eqb_refl.
  - apply not_elem_of_cons in Hc as [Hne Hc]. rewrite index_of_char_cons.
    destruct (N.eqb_spec c a); [done|]. by rewrite IH.
Qed.

Lemma rindex_of_app c (pre post : str) :
  c ∉ post -> rindex_of [c] (pre ++ c :: post) = Some (length pre).
Proof.
  intros Hc. induction pre as [|a pre IH]; cbn [app length].
  - by rewrite rindex_of_char_cons, (rindex_of_not_elem _ _ Hc), N.eqb_refl.
  - by rewrite rindex_of_char_cons, IH.
Qed.

(** X12.  Fencing is undone.  Take a text that begins with [{] and ends
    with [}]; put before it a fence marker and an info string without [{],
    after it anything without [}] (the closing fence, say), and whitespace
    around the whole: the decoder receives the text itself. *)
Theorem fenced_object_is_recovered ws1 info m tail ws2 :
  all_space ws1 -> all_space ws2 ->
  123%N ∉ info -> 125%N ∉ tail ->
  decoder_input (ws1 ++ (FENCE ++ info ++ (123%N :: m ++ [125%N]) ++ tail) ++ ws2)
  = 123%N :: m ++ [125%N].
Proof.
  intros H1 H2 Hinfo Htail. rewrite decoder_input_surround by done.
  assert (FENCE ++ info ++ (123%N :: m ++ [125%N]) ++ tail
          = (FENCE ++ info) ++ 123%N :: (m ++ 125%N :: tail)) as E1
    by (rewrite <- !app_assoc; cbn [app]; by rewrite <- !app_assoc).
  assert (FENCE ++ info ++ (123%N :: m ++ [125%N]) ++ tail
          = ((FENCE ++ info) ++ 123%N :: m) ++ 125%N :: tail) as E2
    by (rewrite <- !app_assoc; cbn [app]; by rewrite <- !app_assoc).
  rewrite (decoder_input_fenced _ (length (FENCE ++ info))
             (length ((FENCE ++ info) ++ 123%N :: m))).
  - rewrite inclusive_substring_take_drop, E1, drop_app_length.
    replace (123%N :: m ++ 125%N :: tail) with ((123%N :: m ++ [125%N]) ++ tail)
      by (cbn [app]; by rewrite <- app_assoc).
    apply take_app_length'. rewrite !length_app. cbn [length].
    rewrite length_app. cbn [length]. lia.
  - apply startswith_fence. by eexists.
  - apply index_of_first. rewrite E1.
    apply index_of_app. apply not_elem_of_app. split; [|done].
    compute_done.
  - apply rindex_of_last. rewrite E2. by apply rindex_of_app.
Qed.

Lemma fenced_object_is_recovered_witness :
  decoder_input (pyq "
```json
{'confidence': 'high', 'extracted_text': {'raw_text': 'TOTAL {12}'}}
```
")
  = pyq "{'confidence': 'high', 'extracted_text': {'raw_text': 'TOTAL {12}'}}".
Proof.
  apply (fenced_object_is_recovered (py "
") (py "json
") (pyq "'confidence': 'high', 'extracted_text': {'raw_text': 'TOTAL {12}'}")
    (py "
```") (py "
")); [repeat constructor..|compute_done|compute_done].
Defined.

(** X13.  The braces are searched independently.  When the stripped reply
    is fenced and its last [}] comes before its first [{], the slice is
    empty: the decoder is called on the empty text, and if it rejects it the
    Error Result carries an empty [raw_response] -- nothing of the reply. *)
Theorem reversed_braces_give_empty_text env ocr sf pc w out w1 i j :
  ask_agent env ocr pc w = (Return out, w1) ->
  startswith (strip out) FENCE = true ->
  first_at 123%N (strip out) i -> last_at 125%N (strip out) j ->
  (j < i)%nat ->
  calls (snd (structure_ocr_to_json env ocr sf pc w))
    = calls w1 ++ [CallJsonLoads []]
  /\ (forall e, json_loads env [] = Raise e -> is_decode_error e = true ->
      exists d,
        fst (structure_ocr_to_json env ocr sf pc w) = Return (VDict d)
        /\ d !! py "error" = Some (VStr (py "JSON parsing failed"))
        /\ d !! py "raw_response" = Some (VStr [])).
Proof.
  intros Hask Hf Hi Hj Hlt.
  assert (decoder_input out = []) as Hin.
  { unfold decoder_input. rewrite (fence_trim_fenced _ _ _ Hf Hi Hj).
    by apply inclusive_substring_empty. }
  split; [by rewrite structure_ocr_to_json_calls, Hask, Hin|].
  intros e Hdec He. rewrite structure_ocr_to_json_cases, Hask.
  cbv beta iota zeta. rewrite Hin, Hdec, He.
  eexists. repeat split; reflexivity.
Qed.

Lemma reversed_braces_give_empty_text_witness :
  let out := py "```} see above {```" in
  let env := Sample.env (Return out) in
  exists d,
    fst (structure_ocr_to_json env (VStr (py "scan")) VNone None Sample.w0)
      = Return (VDict d)
    /\ d !! py "raw_response" = Some (VStr []).
Proof.
  intros out env.
  destruct (reversed_braces_give_empty_text env (VStr (py "scan")) VNone None
              Sample.w0 out (snd (ask_agent env (VStr (py "scan")) None Sample.w0))
              15%nat 3%nat) as [_ H];
    [vm_compute; reflexivity|vm_compute; reflexivity
    |apply index_of_first; vm_compute; reflexivity
    |apply rindex_of_last; vm_compute; reflexivity|lia|].
  destruct (H Sample.decode_error) as (d & Hrun & _ & Hraw);
    [vm_compute; reflexivity..|].
  by exists d.
Defined.

(** ** The output file name, again *)

Lemma replace_final_extension_appends p i :
  last_at 46%N p i -> 47%N ∈ drop i p ->
  replace_final_extension p = p ++ py "_structured.json".
Proof.
  intros Hi Hslash.
  apply list_elem_of_lookup in Hslash as [k Hk]. rewrite lookup_drop in Hk.
  assert (47%N ∈ p) as [j Hj]%last_at_elem by by eapply list_elem_of_lookup_2.
  assert (i < j)%nat as Hij.
  { destruct (decide (i + k <= j)%nat) as [Hle|Hgt].
    - destruct (decide (k = 0)%nat) as [->|]; [|lia].
      rewrite Nat.add_0_r in Hk. destruct Hi as [Hi _]. congruence.
    - destruct Hj as [_ Hj]. destruct (Hj (i + k)%nat); [lia|done]. }
  unfold replace_final_extension, rfind. change (py "/") with [47%N].
  change (py ".") with [46%N].
  rewrite (proj2 (rindex_of_last _ _ _) Hj).
  replace (Z.to_nat (Z.of_nat j + 1)) with (S j) by lia.
  rewrite rindex_of_not_elem.
  - by rewrite app_assoc, take_drop.
  - intros [n Hn]%list_elem_of_lookup. rewrite lookup_drop in Hn.
    destruct Hi as [_ Hi]. destruct (Hi (S j + n)%nat); [lia|done].
Qed.

(** X14.  The output file of the command line is the input path with its
    final extension replaced by [_structured.json] exactly when no [/]
    follows the last [.] of the path.  On a path without [.] the suffix is
    appended; on a path whose last [.] is in a directory name the path is
    cut there, directories and file name lost. *)
Theorem output_file_replaces_extension_iff p :
  output_file p = replace_final_extension p
  <-> (forall i, last_at 46%N p i -> 47%N ∉ drop i p).
Proof.
  split.
  - intros Heq i Hi Hslash.
    rewrite (output_file_cut _ _ Hi) in Heq.
    rewrite (replace_final_extension_appends _ _ Hi Hslash) in Heq.
    apply (f_equal length) in Heq. rewrite !length_app, length_take in Heq.
    pose proof (last_at_lt _ _ _ Hi). lia.
  - intros H. destruct (decide (46%N ∈ p)) as [[i Hi]%last_at_elem|Hno].
    + apply (output_file_replaces_extension p i Hi). by apply H.
    + by apply output_file_without_dot.
Qed.

Lemma output_file_replaces_extension_iff_witness :
  output_file (py "results.v2/scan_ocr_result.json")
  = replace_final_extension (py "results.v2/scan_ocr_result.json")
  /\ output_file (py "results.v2/scan_ocr_result.json")
     = py "results.v2/scan_ocr_result_structured.json".
Proof.
  split; [|reflexivity].
  apply (proj2 (output_file_replaces_extension_iff _)).
  intros i Hi. apply rindex_of_last in Hi. vm_compute in Hi.
  injection Hi as <-. compute_done.
Defined.

(** ** The command line *)

Section Behaviour.

Context (Q : effect -> Prop) (P : exn -> Prop).

Lemma behaves_ret {A} (a : A) : behaves Q P (cret a).
Proof.
  intros k o k' [= <- <-]. split; [|done].
  exists []. by rewrite app_nil_r.
Qed.

Lemma behaves_bind {A B} (c : C A) (f : A -> C B) :
  behaves Q P c -> (forall a, behaves Q P (f a)) -> behaves Q P (cbind c f).
Proof.
  intros Hc Hf k o k'. unfold cbind.
  destruct (c k) as [[a|e] k1] eqn:E; destruct (Hc _ _ _ E) as [(es & Hes & HQ) HP].
  - intros Hrun. destruct (Hf a _ _ _ Hrun) as [(es' & Hes' & HQ') HP'].
    split; [|done]. exists (es ++ es'). split; [|by apply Forall_app].
    by rewrite Hes', Hes, app_assoc.
  - intros [= <- <-]. split; [by exists es|]. intros ? [= <-]. by apply HP.
Qed.

Lemma behaves_lift {A} (o : outcome A) :
  (forall e, o = Raise e -> P e) -> behaves Q P (clift o).
Proof.
  intros Ho k o' k' [= <- <-]. split; [|done].
  exists []. by rewrite app_nil_r.
Qed.

Lemma behaves_perform {A} (e : effect) (o : outcome A) :
  Q e -> (forall x, o = Raise x -> P x) -> behaves Q P (perform e o).
Proof.
  intros He Ho k o' k' [= <- <-]. split; [|done].
  exists [e]. split; [done|]. by repeat constructor.
Qed.

Lemma behaves_print text : Q (DidPrint text) -> behaves Q P (print text).
Proof. intros. by apply behaves_perform. Qed.

Lemma behaves_now sh : behaves Q P (cnow sh).
Proof.
  intros k o k' [= <- <-]. split; [|done].
  exists []. by rewrite app_nil_r.
Qed.

Lemma behaves_with {A} (body : C A) :
  Q DidEnter -> Q DidExit -> behaves Q P body -> behaves Q P (with_client body).
Proof.
  intros Hin Hout Hbody k o k'. unfold with_client.
  destruct (body _) as [r k1] eqn:E. intros [= <- <-].
  destruct (Hbody _ _ _ E) as [(es & Hes & HQ) HP]. split; [|done].
  cbn [effects] in *. exists ([DidEnter] ++ es ++ [DidExit]).
  split; [by rewrite Hes, <- !app_assoc|].
  repeat (apply Forall_app; split); by repeat constructor.
Qed.

End Behaviour.

Lemma behaves_try Q (P0 P : exn -> Prop) {A} (body : C A) sel handler :
  behaves Q P0 body ->
  (forall e, P0 e -> sel e = true -> behaves Q P (handler e)) ->
  (forall e, P0 e -> sel e = false -> P e) ->
  behaves Q P (ctry body sel handler).
Proof.
  intros Hbody Hh Hpass k o k'. unfold ctry.
  destruct (body k) as [[a|e] k1] eqn:E;
    destruct (Hbody _ _ _ E) as [(es & Hes & HQ) HP].
  - intros [= <- <-]. split; [by exists es|done].
  - destruct (sel e) eqn:Hsel.
    + intros Hrun.
      destruct (Hh e (HP _ eq_refl) Hsel _ _ _ Hrun) as [(es' & Hes' & HQ') HP'].
      split; [|done]. exists (es ++ es'). split; [|by apply Forall_app].
      by rewrite Hes', Hes, app_assoc.
    + intros [= <- <-]. split; [by exists es|].
      intros ? [= <-]. apply Hpass; [by apply HP|done].
Qed.

Ltac behave :=
  repeat first
    [ apply behaves_ret
    | apply behaves_print; exact I
    | apply behaves_now
    | apply behaves_lift; done
    | apply behaves_perform; [exact I || reflexivity|done]
    | apply behaves_bind; [|intros ?]
    | match goal with
      | |- behaves _ _ (if ?b then _ else _) => destruct b
      | |- behaves _ _ (match ?x with _ => _ end) => destruct x
      end ].

Lemma print_summary_behaves sh input result :
  behaves (touches input) (fun _ => True) (print_summary sh result).
Proof. unfold print_summary. behave. Qed.

Lemma decode_and_save_behaves sh input ocr sf text :
  behaves (touches input) (fun _ => True) (decode_and_save sh input ocr sf text).
Proof.
  unfold decode_and_save.
  apply (behaves_try _ (fun _ => True)); [|intros; behave|done].
  behave.
Qed.

Lemma read_input_behaves sh input content :
  behaves (touches input) (fun _ => True) (read_input sh input content).
Proof.
  unfold read_input.
  apply (behaves_try _ (fun _ => True)); [|intros; behave|done]. behave.
Qed.

Lemma converse_behaves sh input c :
  behaves (touches input) (fun _ => True) (converse sh input c).
Proof.
  unfold converse. apply behaves_bind; [behave|intros agent].
  do 3 (apply behaves_bind; [behave|intros ?]).
  apply behaves_bind; [apply read_input_behaves|intros [[[? ?] ?]|]]; [|behave].
  unfold submit. do 6 (apply behaves_bind; [behave|intros ?]).
  apply decode_and_save_behaves.
Qed.

Lemma main_behaves sh :
  behaves (touches (default [] (argv sh !! 1%nat))) (fun _ => False) (main sh).
Proof.
  unfold main. apply behaves_bind; [by apply behaves_print|intros _].
  apply (behaves_try _ (fun _ => True)); [|intros; behave|done].
  destruct (_ <? _)%nat; [unfold print_usage; behave|].
  destruct (negb _); [behave|].
  behave. apply behaves_with; [exact I..|]. apply converse_behaves.
Qed.

Ltac crun :=
  cbv [cbind cret clift perform print ctry with_client cnow];
  cbn [effects clock fst snd].

Lemma main_started sh input content c a k :
  started sh input content c a ->
  main sh k =
  closing sh
    ((do* inp := read_input sh input content in
      match inp with
      | None => cret ()
      | Some (is_ocr_json, ocr_text, source_file) =>
          submit sh input c a is_ocr_json ocr_text source_file
      end)
       (Console (effects k ++ opening sh input a) (clock k))).
Proof.
  intros (Hlen & Harg & Hex & Hc & Ha & Hread).
  unfold main, converse.
  destruct (Nat.ltb_spec (length (argv sh)) 2) as [?|_]; [lia|].
  rewrite Harg. change (default [] (Some input)) with input.
  rewrite Hex. cbn [negb].
  unfold closing, opening. crun. rewrite Hc, Ha. cbn [effects clock].
  rewrite Hread. cbn [effects clock]. rewrite <- !app_assoc. cbn [app].
  destruct (read_input sh input content _) as [[[[[j t] f]|]|e] k1];
    cbn [fst snd effects clock]; rewrite <- ?app_assoc; cbn [app];
    [|reflexivity..].
  destruct (submit _ _ _ _ _ _ _ _) as [[[]|e] k2];
    cbn [fst snd effects clock]; rewrite <- ?app_assoc; reflexivity.
Qed.

(** What [read_input] makes of the file, by what the file decodes to. *)
Lemma read_input_run sh input content k :
  read_input sh input content k =
  let env := shell_env sh in
  let k1 := Console (effects k ++ [DidCall (CallJsonLoads content)]) (clock k) in
  let raw := (Return (Some (false, VStr content, VStr input)), k1) in
  let no_get v :=
    (Raise (Exn AttributeError
              (py "'" ++ type_name v ++ py "' object has no attribute 'get'")),
     k1) in
  match json_loads env content with
  | Raise e => if is_decode_error e then raw else (Raise e, k1)
  | Return (VDict d) =>
      if bool_decide (is_Some (d !! py "text"))
         && bool_decide (is_Some (d !! py "status")) then
        if eq_str (default VNone (d !! py "status")) (py "success") then
          (Return (Some (true, default (VStr []) (d !! py "text"),
                         default (VStr input) (d !! py "file_path"))), k1)
        else
          (Return None,
           Console (effects k1
                    ++ [DidPrint ([10060%N] ++ py " OCR failed: "
                                  ++ format env (default (VStr (py "Unknown error"))
                                                   (d !! py "error")))])
             (clock k))
      else raw
  | Return (VList l) =>
      if existsb (fun x => eq_str x (py "text")) l
         && existsb (fun x => eq_str x (py "status")) l
      then no_get (VList l) else raw
  | Return (VStr t) =>
      if bool_decide (is_Some (index_of (py "text") t))
         && bool_decide (is_Some (index_of (py "status") t))
      then no_get (VStr t) else raw
  | Return v => (Raise (Exn TypeError (not_iterable sh v)), k1)
  end.
Proof.
  unfold read_input. crun.
  destruct (json_loads (shell_env sh) content) as [v|e];
    [|by destruct (is_decode_error e)].
  destruct v as [| | | |t|l|d]; cbn [py_contains py_get]; try reflexivity.
  - destruct (bool_decide (is_Some (index_of (py "text") t))); [|done].
    by destruct (bool_decide (is_Some (index_of (py "status") t))).
  - destruct (existsb _ l); [|done]. by destruct (existsb _ l).
  - destruct (bool_decide (is_Some (d !! py "text"))); [|done].
    destruct (bool_decide (is_Some (d !! py "status"))); [|done].
    cbn [andb]. by destruct (eq_str _ _).
Qed.

Lemma py_get_raises v key dflt e :
  py_get v key dflt = Raise e -> is_decode_error e = false.
Proof. destruct v; intros [= <-]; reflexivity. Qed.

Lemma py_getitem_raises v key e :
  py_getitem v key = Raise e -> is_decode_error e = false.
Proof.
  destruct v as [| | | | | |d]; try (intros [= <-]; reflexivity).
  cbn [py_getitem]. destruct (d !! key); [done|]. by intros [= <-].
Qed.

(** The summary only prints, and what it raises is no decoder error. *)
Lemma print_summary_prints sh result :
  behaves is_print (fun e => is_decode_error e = false) (print_summary sh result).
Proof.
  unfold print_summary.
  repeat first
    [ apply behaves_ret
    | apply behaves_print; exact I
    | apply behaves_lift; intros ?; (apply py_get_raises || apply py_getitem_raises)
    | apply behaves_bind; [|intros ?]
    | match goal with
      | |- behaves _ _ (if ?b then _ else _) => destruct b
      end ].
Qed.

(** [submit], when the length of the text can be taken and the SDK answers. *)
Lemma submit_run sh input c a j ocr sf n oc r k :
  py_len ocr = Return n ->
  get_openai_client c = Return oc ->
  responses_create oc (user_query (shell_env sh) ocr) (agent_name a) = Return r ->
  submit sh input c a j ocr sf k =
  decode_and_save sh input ocr sf (decoder_input (output_text r))
    (Console (effects k ++ asking sh j ocr n a) (clock k)).
Proof.
  intros Hn Hoc Hr. unfold submit, asking. crun. rewrite Hn, Hoc. cbn [effects clock].
  rewrite Hr. cbn [effects clock]. rewrite <- !app_assoc. reflexivity.
Qed.

(** [decode_and_save] when the reply does not decode. *)
Lemma decode_and_save_undecodable sh input ocr sf text e k :
  json_loads (shell_env sh) text = Raise e -> is_decode_error e = true ->
  decode_and_save sh input ocr sf text k =
  (Return (),
   Console (effects k
            ++ [DidCall (CallJsonLoads text);
                DidPrint (NL ++ [10060%N]
                          ++ py " Failed to parse agent response as JSON: "
                          ++ exn_msg e);
                DidPrint (py "Raw response:" ++ NL ++ text)])
     (clock k)).
Proof.
  intros Hdec He. unfold decode_and_save. crun. rewrite Hdec, He.
  cbn [effects clock]. by rewrite <- !app_assoc.
Qed.

(** [decode_and_save] when the reply decodes to a mapping and the file can
    be written: everything up to the saving happens, then the summary runs,
    and whatever it raises passes the inner [except]. *)
Lemma decode_and_save_saves sh input ocr sf text d n k :
  json_loads (shell_env sh) text = Return (VDict d) ->
  py_len ocr = Return n ->
  let result :=
    VDict (<[py "metadata" := cli_metadata sh sf
                                (isoformat_now (shell_env sh) (clock k)) n]> d) in
  write_text sh (output_file input) (json_dumps sh result) = Return () ->
  decode_and_save sh input ocr sf text k =
  print_summary sh result
    (Console (effects k ++ saving sh input text result) (S (clock k))).
Proof.
  intros Hdec Hn result Hw. unfold decode_and_save, saving.
  unfold ctry, cbind at 1. unfold perform at 1. rewrite Hdec.
  unfold cbind at 1. unfold cnow at 1. cbn [effects clock].
  unfold cbind at 1. unfold clift at 1. rewrite Hn.
  unfold cbind at 1. unfold clift at 1. cbn [py_setitem]. fold result.
  unfold cbind at 1. unfold print at 1. unfold perform at 1. cbn [effects clock].
  unfold cbind at 1. unfold print at 1. unfold perform at 1. cbn [effects clock].
  unfold cbind at 1. unfold perform at 1. rewrite Hw. cbn [effects clock].
  unfold cbind at 1. unfold print at 1. unfold perform at 1. cbn [effects clock].
  rewrite <- !app_assoc. cbn [app].
  destruct (print_summary sh result _) as [[[]|e] k'] eqn:E; [done|].
  destruct (print_summary_prints sh result _ _ _ E) as [_ He].
  by rewrite (He e eq_refl).
Qed.

Lemma writes_app es1 es2 : writes (es1 ++ es2) = writes es1 ++ writes es2.
Proof. apply omap_app. Qed.

Lemma requests_app es1 es2 : requests (es1 ++ es2) = requests es1 ++ requests es2.
Proof. apply omap_app. Qed.

Lemma sdk_calls_app es1 es2 : sdk_calls (es1 ++ es2) = sdk_calls es1 ++ sdk_calls es2.
Proof. apply omap_app. Qed.

Lemma prints_are_silent es :
  Forall is_print es -> writes es = [] /\ requests es = [] /\ sdk_calls es = [].
Proof.
  induction 1 as [|e es He _ (IH1 & IH2 & IH3)]; [done|].
  destruct e; done || (cbn; by rewrite IH1, IH2, IH3).
Qed.

(** X15.  [main] never raises: whatever the SDK, the file system, the
    decoder and the summary raise is caught by the outermost [except], so a
    run always ends normally ([print] and the [with] block taken not to
    raise). *)
Theorem main_never_raises sh k : exists k', main sh k = (Return (), k').
Proof.
  destruct (main sh k) as [[[]|e] k'] eqn:E; [by eexists|].
  destruct (main_behaves sh _ _ _ E) as [_ H]. destruct (H e eq_refl).
Qed.

(** X16.  The only file [main] reads is the path given as its argument, and
    the only file it writes is [output_file] of that path. *)
Theorem main_touches_two_files sh k :
  let input_file := default [] (argv sh !! 1%nat) in
  exists es,
    effects (snd (main sh k)) = effects k ++ es
    /\ (forall p, DidRead p ∈ es -> p = input_file)
    /\ (forall p c, DidWrite p c ∈ es -> p = output_file input_file).
Proof.
  intros input_file. destruct (main sh k) as [o k'] eqn:E.
  destruct (main_behaves sh _ _ _ E) as [(es & Hes & HQ) _].
  exists es. split; [done|]. rewrite Forall_forall in HQ.
  split; [intros p Hp|intros p c Hp]; exact (HQ _ Hp).
Qed.

(** X17.  Without a usable argument -- none given, or a path that does not
    exist -- [main] only prints: it builds no client, registers no agent,
    and touches no file. *)
Theorem main_without_input_only_prints sh k :
  (length (argv sh) < 2)%nat
  \/ path_exists sh (default [] (argv sh !! 1%nat)) = false ->
  exists es,
    main sh k = (Return (), Console (effects k ++ es) (clock k))
    /\ Forall is_print es.
Proof.
  intros H. unfold main.
  destruct (Nat.ltb_spec (length (argv sh)) 2) as [Hlt|Hge].
  - unfold print_usage. crun. rewrite <- !app_assoc. cbn [app].
    eexists. split; [reflexivity|]. by repeat constructor.
  - destruct H as [?|Hex]; [lia|]. rewrite Hex. crun.
    cbn [negb effects clock]. rewrite <- ?app_assoc. cbn [app].
    eexists. split; [reflexivity|]. by repeat constructor.
Qed.

Lemma main_without_input_only_prints_witness :
  let sh := SampleShell.shell [py "json_structuring_agent.py"; py "missing.txt"]
              ∅ (Return (py "never asked")) in
  exists es,
    main sh SampleShell.k0 = (Return (), Console es 0)
    /\ Forall is_print es
    /\ last es = Some (DidPrint ([10060%N] ++ py " Error: File not found: missing.txt")).
Proof.
  intros sh.
  destruct (main_without_input_only_prints sh SampleShell.k0)
    as (es & Hrun & Hes); [right; vm_compute; reflexivity|].
  exists es. split; [exact Hrun|]. split; [exact Hes|].
  assert (effects (snd (main sh SampleShell.k0)) = es) as <- by by rewrite Hrun.
  vm_compute. reflexivity.
Defined.

(** [main] from its start to the decoding of the reply, when the input is
    read as [ocr_text] and [source_file] and the SDK answers. *)
Lemma main_asked sh input content c a j ocr sf n r k :
  started sh input content c a ->
  read_input sh input content (Console (effects k ++ opening sh input a) (clock k))
  = (Return (Some (j, ocr, sf)),
     Console ((effects k ++ opening sh input a)
              ++ [DidCall (CallJsonLoads content)]) (clock k)) ->
  py_len ocr = Return n ->
  answered sh c a ocr r ->
  main sh k =
  closing sh
    (decode_and_save sh input ocr sf (decoder_input (output_text r))
       (Console (effects k ++ opening sh input a
                 ++ DidCall (CallJsonLoads content) :: asking sh j ocr n a)
          (clock k))).
Proof.
  intros Hst Hread Hn (oc & Hoc & Hr).
  rewrite (main_started sh input content c a k Hst).
  unfold cbind at 1. rewrite Hread.
  rewrite (submit_run sh input c a j ocr sf n oc r _ Hn Hoc Hr).
  cbn [effects clock]. by rewrite <- !app_assoc.
Qed.

(** A file that is not JSON is read as raw text. *)
Lemma read_input_raw sh input content e k :
  json_loads (shell_env sh) content = Raise e -> is_decode_error e = true ->
  read_input sh input content k
  = (Return (Some (false, VStr content, VStr input)),
     Console (effects k ++ [DidCall (CallJsonLoads content)]) (clock k)).
Proof. intros Hdec He. rewrite read_input_run. cbv zeta. by rewrite Hdec, He. Qed.

(** The summary on a result whose [extracted_data] is not a mapping. *)
Lemma print_summary_crash sh d v k :
  d !! py "extracted_data" = Some v -> (forall m, v <> VDict m) ->
  print_summary sh (VDict d) k =
  (Raise (Exn AttributeError
            (py "'" ++ type_name v ++ py "' object has no attribute 'get'")),
   Console
     (effects k
      ++ [DidPrint (NL ++ [128202%N] ++ py " Summary:");
          DidPrint (py "   Document type: "
                    ++ format (shell_env sh)
                         (default (VStr (py "unknown")) (d !! py "document_type")));
          DidPrint (py "   Vehicle side: "
                    ++ format (shell_env sh)
                         (default (VStr (py "unspecified")) (d !! py "vehicle_side")));
          DidPrint (py "   Confidence: "
                    ++ format (shell_env sh)
                         (default (VStr (py "unknown")) (d !! py "confidence")))])
     (clock k)).
Proof.
  intros Hd Hv. unfold print_summary. crun. cbn [py_get]. rewrite Hd.
  change (default (VDict ∅) (Some v)) with v.
  destruct v as [| | | | | |m]; try (by destruct (Hv m));
    cbn [py_get effects clock]; by rewrite <- !app_assoc.
Qed.

Lemma closing_effects sh o k :
  exists tail,
    effects (snd (closing sh (o, k))) = effects k ++ DidExit :: tail
    /\ Forall is_print tail
    /\ forall e, o = Raise e ->
         tail = [DidPrint ([10060%N] ++ py " Error: " ++ exn_msg e);
                 DidPrint (NL ++ py "Stack trace:" ++ NL ++ format_exc sh e)].
Proof.
  unfold closing. cbn [fst snd]. destruct o as [[]|e]; cbn [snd effects].
  - exists []. by repeat split.
  - eexists. split; [by rewrite <- app_assoc|]. split; [by repeat constructor|].
    by intros ? [= <-].
Qed.

(** X18.  A plain-text file, end to end.  When the file is not JSON, its
    whole content is the OCR text: one request is submitted, carrying
    exactly that content between the two fixed parts of the query, and when
    the reply decodes to a mapping one file is written, [output_file] of
    the input path, holding the mapping with [metadata] set -- [source_file]
    the input path, [original_text_length] the length of the content --
    whatever the summary printed afterwards does. *)
Theorem main_structures_a_text_file sh input content c a r e0 d k :
  started sh input content c a ->
  json_loads (shell_env sh) content = Raise e0 -> is_decode_error e0 = true ->
  answered sh c a (VStr content) r ->
  json_loads (shell_env sh) (decoder_input (output_text r)) = Return (VDict d) ->
  let result :=
    VDict (<[py "metadata" :=
               cli_metadata sh (VStr input)
                 (isoformat_now (shell_env sh) (clock k))
                 (VInt (Z.of_nat (length content)))]> d) in
  write_text sh (output_file input) (json_dumps sh result) = Return () ->
  exists es,
    effects (snd (main sh k)) = effects k ++ es
    /\ requests es = [QUERY_HEAD ++ content ++ QUERY_TAIL]
    /\ writes es = [(output_file input, json_dumps sh result)].
Proof.
  intros Hst Hraw He0 Hans Hdec result Hw.
  rewrite (main_asked sh input content c a false (VStr content) (VStr input)
             (VInt (Z.of_nat (length content))) r k Hst
             (read_input_raw _ _ _ _ _ Hraw He0) eq_refl Hans).
  match goal with |- context [decode_and_save _ _ _ _ _ ?K] =>
    pose proof (decode_and_save_saves sh input (VStr content) (VStr input) _ d _
                  K Hdec eq_refl) as Hsave end.
  cbn [clock] in Hsave. rewrite (Hsave Hw). clear Hsave.
  cbn [effects clock]. fold result.
  destruct (print_summary sh result _) as [o k'] eqn:E.
  destruct (print_summary_prints sh result _ _ _ E) as [(es' & Hes' & Hpr) _].
  destruct (closing_effects sh o k') as (tail & -> & Htail & _).
  cbn [effects] in Hes'. rewrite Hes', <- !app_assoc.
  eexists. split; [reflexivity|].
  destruct (prints_are_silent _ Hpr) as (W1 & R1 & _).
  destruct (prints_are_silent _ Htail) as (W2 & R2 & _).
  rewrite !requests_app, !writes_app.
  change (DidExit :: tail) with ([DidExit] ++ tail).
  rewrite !requests_app, !writes_app, W1, R1, W2, R2. split; reflexivity.
Qed.

Ltac member :=
  repeat first
    [ apply elem_of_cons; left; vm_compute; reflexivity
    | apply elem_of_app; right
    | apply elem_of_cons; right ].

Lemma main_structures_a_text_file_witness :
  let reply := pyq "```json
{'document_type': 'receipt'}
```" in
  let sh := SampleShell.shell [py "json_structuring_agent.py"; py "out/scan.txt"]
              {[ py "out/scan.txt" := py "TOTAL 12" ]} (Return reply) in
  exists es content,
    effects (snd (main sh SampleShell.k0)) = es
    /\ requests es = [QUERY_HEAD ++ py "TOTAL 12" ++ QUERY_TAIL]
    /\ writes es = [(py "out/scan_structured.json", content)].
Proof.
  intros reply sh.
  destruct (main_structures_a_text_file sh (py "out/scan.txt") (py "TOTAL 12")
              (Sample.client (Return reply))
              {| agent_name := py "OCRTextExtractionAgent"; agent_version := py "1" |}
              {| output_text := reply |} Sample.decode_error
              {[ py "document_type" := VStr (py "receipt") ]} SampleShell.k0)
    as (es & Hes & Hreq & Hwr).
  - repeat split; vm_compute; reflexivity.
  - vm_compute. reflexivity.
  - reflexivity.
  - exists (Sample.openai (Return reply)). split; vm_compute; reflexivity.
  - vm_compute. reflexivity.
  - reflexivity.
  - exists es. eexists. split; [exact Hes|]. split; [exact Hreq|].
    rewrite Hwr. reflexivity.
Defined.

(** X19.  The summary can fail after the file is saved.  When the mapping
    the model returned has an [extracted_data] that is not a mapping
    ([null], a string, a list, a number), the result file is written first
    and then the summary's [.get] raises [AttributeError]: the run ends
    with the error report of the outermost [except], the file in place. *)
Theorem main_saves_before_summary_fails sh input content c a r e0 d v k :
  started sh input content c a ->
  json_loads (shell_env sh) content = Raise e0 -> is_decode_error e0 = true ->
  answered sh c a (VStr content) r ->
  json_loads (shell_env sh) (decoder_input (output_text r)) = Return (VDict d) ->
  d !! py "extracted_data" = Some v -> (forall m, v <> VDict m) ->
  let result :=
    VDict (<[py "metadata" :=
               cli_metadata sh (VStr input)
                 (isoformat_now (shell_env sh) (clock k))
                 (VInt (Z.of_nat (length content)))]> d) in
  write_text sh (output_file input) (json_dumps sh result) = Return () ->
  let e := Exn AttributeError
             (py "'" ++ type_name v ++ py "' object has no attribute 'get'") in
  exists es,
    effects (snd (main sh k))
    = effects k ++ es
      ++ [DidExit;
          DidPrint ([10060%N] ++ py " Error: " ++ exn_msg e);
          DidPrint (NL ++ py "Stack trace:" ++ NL ++ format_exc sh e)]
    /\ writes es = [(output_file input, json_dumps sh result)].
Proof.
  intros Hst Hraw He0 Hans Hdec Hd Hv result Hw e.
  rewrite (main_asked sh input content c a false (VStr content) (VStr input)
             (VInt (Z.of_nat (length content))) r k Hst
             (read_input_raw _ _ _ _ _ Hraw He0) eq_refl Hans).
  match goal with |- context [decode_and_save _ _ _ _ _ ?K] =>
    pose proof (decode_and_save_saves sh input (VStr content) (VStr input) _ d _
                  K Hdec eq_refl) as Hsave end.
  cbn [clock] in Hsave. rewrite (Hsave Hw). clear Hsave.
  cbn [effects clock].
  assert (<[py "metadata" :=
               cli_metadata sh (VStr input)
                 (isoformat_now (shell_env sh) (clock k))
                 (VInt (Z.of_nat (length content)))]> d !! py "extracted_data"
          = Some v) as Hd'.
  { rewrite lookup_insert_ne by (vm_compute; congruence). exact Hd. }
  rewrite (print_summary_crash sh _ v _ Hd' Hv).
  unfold closing. cbn [fst snd effects clock].
  match goal with |- context [(_ ++ saving _ _ _ _) ++ ?prints] =>
    exists (opening sh input a
            ++ (DidCall (CallJsonLoads content)
                :: asking sh false (VStr content)
                     (VInt (Z.of_nat (length content))) a)
            ++ saving sh input (decoder_input (output_text r)) result ++ prints)
  end.
  split.
  - rewrite <- !app_assoc. reflexivity.
  - rewrite !writes_app. reflexivity.
Qed.

Lemma main_saves_before_summary_fails_witness :
  let reply := pyq "{'document_type': 'receipt', 'extracted_data': null}" in
  let sh := SampleShell.shell [py "json_structuring_agent.py"; py "scan.txt"]
              {[ py "scan.txt" := py "TOTAL 12" ]} (Return reply) in
  exists es content,
    effects (snd (main sh SampleShell.k0)) = es
    /\ writes es = [(py "scan_structured.json", content)]
    /\ DidPrint ([10060%N]
                 ++ py " Error: 'NoneType' object has no attribute 'get'") ∈ es.
Proof.
  intros reply sh.
  destruct (main_saves_before_summary_fails sh (py "scan.txt") (py "TOTAL 12")
              (Sample.client (Return reply))
              {| agent_name := py "OCRTextExtractionAgent"; agent_version := py "1" |}
              {| output_text := reply |} Sample.decode_error
              {[ py "document_type" := VStr (py "receipt");
                 py "extracted_data" := VNone ]} VNone SampleShell.k0)
    as (es & Hes & Hwr).
  - repeat split; vm_compute; reflexivity.
  - vm_compute. reflexivity.
  - reflexivity.
  - exists (Sample.openai (Return reply)). split; vm_compute; reflexivity.
  - vm_compute. reflexivity.
  - vm_compute. reflexivity.
  - congruence.
  - reflexivity.
  - eexists. eexists. split; [exact Hes|]. split.
    + rewrite !writes_app, Hwr. reflexivity.
    + member.
Defined.

(** X20.  When the reply does not decode, [main] writes no file: it prints
    the decoder's diagnostic and, as "raw response", the text that was given
    to the decoder -- the normalised reply, as in [structure_ocr_to_json] --
    and ends normally, without the error report of the outermost
    [except]. *)
Theorem main_reports_undecodable_reply sh input content c a r e0 e k :
  started sh input content c a ->
  json_loads (shell_env sh) content = Raise e0 -> is_decode_error e0 = true ->
  answered sh c a (VStr content) r ->
  json_loads (shell_env sh) (decoder_input (output_text r)) = Raise e ->
  is_decode_error e = true ->
  let text := decoder_input (output_text r) in
  let es :=
    opening sh input a
    ++ (DidCall (CallJsonLoads content)
        :: asking sh false (VStr content) (VInt (Z.of_nat (length content))) a)
    ++ [DidCall (CallJsonLoads text);
        DidPrint (NL ++ [10060%N] ++ py " Failed to parse agent response as JSON: "
                  ++ exn_msg e);
        DidPrint (py "Raw response:" ++ NL ++ text);
        DidExit] in
  main sh k = (Return (), Console (effects k ++ es) (clock k))
  /\ writes es = [].
Proof.
  intros Hst Hraw He0 Hans Hdec He text es.
  rewrite (main_asked sh input content c a false (VStr content) (VStr input)
             (VInt (Z.of_nat (length content))) r k Hst
             (read_input_raw _ _ _ _ _ Hraw He0) eq_refl Hans).
  rewrite (decode_and_save_undecodable sh input _ _ _ e _ Hdec He).
  unfold closing. cbn [fst snd effects clock]. split; [|reflexivity].
  subst es text. do 2 f_equal. by rewrite <- !app_assoc.
Qed.

Lemma main_reports_undecodable_reply_witness :
  let reply := py "```json
Sorry, I cannot read this.
```" in
  let sh := SampleShell.shell [py "json_structuring_agent.py"; py "scan.txt"]
              {[ py "scan.txt" := py "TOTAL 12" ]} (Return reply) in
  exists es,
    main sh SampleShell.k0 = (Return (), Console es 0)
    /\ writes es = []
    /\ DidPrint (py "Raw response:" ++ NL ++ reply) ∈ es.
Proof.
  intros reply sh.
  destruct (main_reports_undecodable_reply sh (py "scan.txt") (py "TOTAL 12")
              (Sample.client (Return reply))
              {| agent_name := py "OCRTextExtractionAgent"; agent_version := py "1" |}
              {| output_text := reply |} Sample.decode_error Sample.decode_error
              SampleShell.k0)
    as (Hrun & Hwr).
  - repeat split; vm_compute; reflexivity.
  - vm_compute. reflexivity.
  - reflexivity.
  - exists (Sample.openai (Return reply)). split; vm_compute; reflexivity.
  - vm_compute. reflexivity.
  - reflexivity.
  - eexists. split; [exact Hrun|]. cbn [effects SampleShell.k0 app].
    split; [exact Hwr|].
    member.
Defined.



(** X22.  A file whose content is a bare JSON number, [true], [false] or
    [null] is not read as raw text: the test ["text" in ocr_data] raises
    [TypeError], which is no [JSONDecodeError], so [main] leaves the [with]
    block and reports the error; no request is submitted and no file is
    written. *)
Theorem main_rejects_scalar_json_file sh input content c a v k :
  started sh input content c a ->
  json_loads (shell_env sh) content = Return v ->
  match v with VNone | VBool _ | VInt _ | VFloat _ => True | _ => False end ->
  let e := Exn TypeError (not_iterable sh v) in
  let es :=
    opening sh input a
    ++ [DidCall (CallJsonLoads content);
        DidExit;
        DidPrint ([10060%N] ++ py " Error: " ++ exn_msg e);
        DidPrint (NL ++ py "Stack trace:" ++ NL ++ format_exc sh e)] in
  main sh k = (Return (), Console (effects k ++ es) (clock k))
  /\ requests es = [] /\ writes es = [].
Proof.
  intros Hst Hdec Hv e es.
  rewrite (main_started sh input content c a k Hst).
  unfold cbind at 1. rewrite read_input_run. cbv zeta. rewrite Hdec.
  split; [|by split].
  destruct v; try done; unfold closing; cbn [fst snd effects clock];
    subst es e; do 2 f_equal; by rewrite <- !app_assoc.
Qed.

Lemma main_rejects_scalar_json_file_witness :
  let sh := SampleShell.shell [py "json_structuring_agent.py"; py "scan.txt"]
              {[ py "scan.txt" := py "12345" ]} (Return (py "never asked")) in
  exists es,
    main sh SampleShell.k0 = (Return (), Console es 0)
    /\ requests es = []
    /\ DidPrint ([10060%N] ++ py " Error: argument of type 'int' is not iterable") ∈ es.
Proof.
  intros sh.
  destruct (main_rejects_scalar_json_file sh (py "scan.txt") (py "12345")
              (Sample.client (Return (py "never asked")))
              {| agent_name := py "OCRTextExtractionAgent"; agent_version := py "1" |}
              (VInt 12345) SampleShell.k0)
    as (Hrun & Hreq & _).
  - repeat split; vm_compute; reflexivity.
  - vm_compute. reflexivity.
  - exact I.
  - eexists. split; [exact Hrun|]. cbn [effects SampleShell.k0 app].
    split; [exact Hreq|].
    member.
Defined.




Lemma output_file_is_not_input p : output_file p <> p.
Proof.
  destruct (decide (46%N ∈ p)) as [[i Hi]%last_at_elem|Hno].
  - rewrite (output_file_cut _ _ Hi). intros Heq.
    rewrite <- (take_drop i p) in Heq at 2. apply app_inv_head in Heq.
    rewrite (drop_S _ _ _ (proj1 Hi)) in Heq. discriminate Heq.
  - destruct (output_file_without_dot _ Hno) as [-> _]. intros Heq.
    apply (f_equal length) in Heq. rewrite length_app in Heq.
    change (length (py "_structured.json")) with 16%nat in Heq. lia.
Qed.

(** X24.  [main] never overwrites its input: whatever path it is given, the
    file it writes has another name, because the name it builds ends with
    [_structured.json] placed where the last [.] of the path was, or after
    the whole path. *)
Theorem main_never_overwrites_its_input sh k :
  exists es,
    effects (snd (main sh k)) = effects k ++ es
    /\ forall p c, DidWrite p c ∈ es -> p <> default [] (argv sh !! 1%nat).
Proof.
  destruct (main sh k) as [o k'] eqn:E.
  destruct (main_behaves sh _ _ _ E) as [(es & Hes & HQ) _].
  exists es. split; [done|]. rewrite Forall_forall in HQ.
  intros p c Hp. rewrite (HQ _ Hp : p = _). apply output_file_is_not_input.
Qed.

(** ** The model name *)

(** X25.  The [agent_model] of a Structured Result is the model the agent
    was registered with in that same run: the value of
    [MODEL_DEPLOYMENT_NAME], or ["gpt-4o-mini"] when the variable is not
    set. *)
Theorem reported_model_is_registered_model env ocr sf pc w out w1 d n :
  ask_agent env ocr pc w = (Return out, w1) ->
  json_loads env (decoder_input out) = Return (VDict d) ->
  py_len ocr = Return n ->
  exists r m model w',
    structure_ocr_to_json env ocr sf pc w = (Return (VDict r), w')
    /\ r !! py "metadata" = Some (VDict m)
    /\ m !! py "agent_model" = Some (VStr model)
    /\ CallCreateVersion (py "OCRTextExtractionAgent") model get_agent_instructions
       ∈ calls w'
    /\ model = default (py "gpt-4o-mini") (environ env !! py "MODEL_DEPLOYMENT_NAME").
Proof.
  intros Hask Hdec Hn.
  rewrite structure_ocr_to_json_cases, Hask. cbv beta iota zeta.
  rewrite Hdec, Hn. cbn [py_setitem]. unfold success_metadata.
  do 4 eexists.
  split; [reflexivity|]. split; [apply lookup_insert_eq|].
  split; [reflexivity|]. split; [|reflexivity].
  rewrite ask_agent_run in Hask. cbv beta iota zeta in Hask.
  unfold ticked, called. cbn [calls].
  apply elem_of_app. left.
  destruct (match pc with None => _ | Some c => Return c end) as [c|?]; [|done].
  destruct (agents_create_version c _ _ _) as [a|?]; [|done].
  destruct (get_openai_client c) as [oc|?]; [|done].
  injection Hask as _ <-. cbn [calls].
  apply elem_of_app. right. apply elem_of_app. right.
  apply elem_of_cons. by left.
Qed.

Lemma reported_model_is_registered_model_witness :
  let env := Sample.env (Return (py "{}")) in
  exists r m,
    fst (structure_ocr_to_json env (VStr (py "scan")) VNone None Sample.w0)
      = Return (VDict r)
    /\ r !! py "metadata" = Some (VDict m)
    /\ m !! py "agent_model" = Some (VStr (py "gpt-4o-mini")).
Proof.
  intros env.
  destruct (reported_model_is_registered_model env (VStr (py "scan")) VNone None
              Sample.w0 (py "{}")
              (snd (ask_agent env (VStr (py "scan")) None Sample.w0)) ∅ (VInt 4))
    as (r & m & model & w' & Hrun & Hmeta & Hmodel & _ & ->);
    [vm_compute; reflexivity..|].
  exists r, m. by rewrite Hrun.
Defined.
